(** * TimeClock: the desktop clock's time source, network sync and settings store

    A shallow embedding of [TimeClockWindows.py] (and of its commented twin
    [TimeClockWindowsNotes.py], whose [fetch_ntp], [_now], [_ntp_loop],
    [_save] and [_load] are the same code).

    Conventions of the embedding.
    - A Python [float] is represented by the number of millionths it
      denotes ([10.0] is [PFloat 10000000]).  [datetime] and [timedelta]
      count whole microseconds, so [timedelta.total_seconds()] and, within
      its range, [timedelta(seconds=x)] are the identity on this
      representation.  The sum of two floats is rounded by the machine, and
      [timedelta] rounds it again to a microsecond: the sum [_now] hands to
      [timedelta] is library code ([float_sum]).  [timedelta] holds at most
      999999999 days and [datetime] the years 1 to 9999; what leaves these
      ranges raises [OverflowError].  NaN and the infinities are not
      represented.
    - A JSON document is represented by the value it denotes: the text
      [json.dumps] produces for [v] is [JsonText v], and [json.loads] gives
      [v] back; any text that is not JSON is [Garbage].
    - Python exceptions are explicit: a computation returns a value or
      raises, and the attributes assigned before a [raise] stay assigned.
      An integer that does not fit the C int of a [QPoint] coordinate is
      not raised to the caller: the binding reports it to [sys.excepthook],
      which the program has replaced by [handle_exception], and that
      handler ends the process with [sys.exit(1)]; no [except] clause sees
      it ([Exit]).
    - Of the logging calls the one that writes the network offset to the
      log file is kept ([offset_log]); the others are dropped.  The system
      clock, the HTTP server and the file system are an environment of
      oracles ([Env]); the Qt colour class,
      [email.utils.parsedate_to_datetime], [int(str)] and the rounded sum
      of two floats are library code taken as parameters ([Lib]).
    - The window code ([__init__], [_apply_style], [_tick], the mouse, tray
      and close handlers, [_open_settings], [SettingsDialog], [_exit]) runs
      on a [Shell]: the core's state plus what the window reads back from
      itself or from Qt.  What Qt answers (font metrics, the truth value of a
      point, the flags and sizes it reports) is a parameter ([Toolkit]); what
      the user does in the settings dialog is an input ([Session]).  The two
      source files differ in [SettingsDialog.accept] and in the order of two
      font calls; the functions concerned take the file as an argument. *)

From stdpp Require Import base gmap strings list pretty.
From Stdlib Require Import ZArith Lia Ascii.

#[local] Set Warnings "-register-all".
#[local] Open Scope Z_scope.

(** ** Python values *)

Module Py.

Inductive pyval :=
| PNone
| PBool (b : bool)
| PInt (z : Z)
| PFloat (micro : Z)
| PStr (s : string)
| PList (l : list pyval)
| PDict (d : gmap string pyval).

(** The exception classes the program can meet.  All of them derive from
    [Exception]. *)
Inductive exn :=
| Timeout
| ConnectionError
| RequestException
| JSONDecodeError
| UnicodeError
| ValueError
| TypeError
| AttributeError
| OverflowError
| OSError.

(** How a call ends: it returns, it raises, or the process has ended with
    an exit status ([sys.exit] called by [handle_exception], the program's
    [sys.excepthook]). *)
Inductive result (A : Type) :=
| Return (a : A)
| Raise (e : exn)
| Exit (status : Z).
Arguments Return {A} a.
Arguments Raise {A} e.
Arguments Exit {A} status.

(** [isinstance(e, C)] for the classes named in [except] clauses. *)
Definition is_Timeout (e : exn) : bool :=
  match e with Timeout => true | _ => false end.

Definition is_ConnectionError (e : exn) : bool :=
  match e with ConnectionError => true | _ => false end.

Definition is_RequestException (e : exn) : bool :=
  match e with Timeout | ConnectionError | RequestException => true | _ => false end.

Definition is_JSONDecodeError (e : exn) : bool :=
  match e with JSONDecodeError => true | _ => false end.

Definition is_ValueError (e : exn) : bool :=
  match e with ValueError | JSONDecodeError | UnicodeError => true | _ => false end.

Definition is_Exception (e : exn) : bool := true.

(** Truth value of an object, as tested by [if]. *)
Definition truthy (v : pyval) : bool :=
  match v with
  | PNone => false
  | PBool b => b
  | PInt z => negb (z =? 0)
  | PFloat f => negb (f =? 0)
  | PStr s => negb (String.eqb s "")
  | PList l => match l with [] => false | _ => true end
  | PDict d => negb (bool_decide (d = ∅))
  end.

Definition million : Z := 1000000.

(** A number as millionths, for arithmetic with a float: [bool] and [int]
    are promoted, anything else is not a number. *)
Definition as_float (v : pyval) : option Z :=
  match v with
  | PFloat f => Some f
  | PInt z => Some (z * million)
  | PBool b => Some (if b then million else 0)
  | _ => None
  end.

End Py.
Export Py.

(** ** [handle_exception], the program's [sys.excepthook]

    It logs the exception and calls [sys.exit(1)]: the value is the status
    the process ends with.  (KeyboardInterrupt, which it hands to the
    default hook, is not among [exn].) *)
Definition handle_exception (e : exn) : Z := 1.

(** ** Dates and times *)

(** An aware [datetime]: the instant in microseconds since the epoch (UTC)
    and the UTC offset of its time zone, in microseconds. *)
Record aware := Aware { instant : Z; utcoffset : Z }.

Inductive datetime :=
| WithTz (a : aware)
| Naive (wall : Z).

Definition hours (h : Z) : Z := h * 3600 * million.

(** What the clock face shows: year, month, day, hour, minute and second are
    read off this microsecond count. *)
Definition wall_clock (a : aware) : Z := instant a + utcoffset a.

Definition UTC : Z := 0.

(** [datetime.min] and [datetime.max], 0001-01-01 00:00:00 and 9999-12-31
    23:59:59.999999, in microseconds since the epoch. *)
Definition datetime_min : Z := -62135596800 * million.

Definition datetime_max : Z := 253402300800 * million - 1.

Definition in_years (wall : Z) : bool :=
  (datetime_min <=? wall) && (wall <=? datetime_max).

(** A [timedelta] holds between -999999999 and 999999999 whole days (and
    less than a day on top). *)
Definition day : Z := 86400 * million.

Definition in_days (td : Z) : bool :=
  (-999999999 <=? td / day) && (td / day <=? 999999999).

(** [timedelta(seconds=x)] for a float [x], given in the microseconds it is
    rounded to. *)
Definition timedelta_seconds (x : Z) : result Z :=
  if in_days x then Return x else Raise OverflowError.

(** [a + td] for a timedelta [td]: the date and time [a] shows, moved by
    [td], has to be a date of the years 1 to 9999. *)
Definition datetime_add (a : aware) (td : Z) : result aware :=
  let r := {| instant := instant a + td; utcoffset := utcoffset a |} in
  if in_years (wall_clock r) then Return r else Raise OverflowError.

(** [a.astimezone(timezone(timedelta(microseconds=tz)))]: [a] is taken to
    UTC and from there to the zone, both by datetime arithmetic. *)
Definition astimezone (a : aware) (tz : Z) : result aware :=
  if in_years (instant a) && in_years (instant a + tz)
  then Return {| instant := instant a; utcoffset := tz |}
  else Raise OverflowError.

(** ** The environment *)

(** Outcome of one [requests.head(SYNC_URL, timeout=5)]: a response with its
    headers (by canonical name), or an exception; [took] is the time the call
    lasted, in microseconds. *)
Inductive HttpOutcome :=
| Responds (headers : gmap string string)
| Fails (e : exn).

Record Exchange := { outcome : HttpOutcome; took : N }.

(** The configuration file: absent, out of reach ([exists] itself raises,
    as when the path leads through a directory the user may not search),
    present but unreadable ([read_text] raises), or holding some text. *)
Inductive text :=
| Garbage (raw : string)
| JsonText (v : pyval).

Inductive FileState :=
| Absent
| Inaccessible (e : exn)
| Unreadable (e : exn)
| Content (t : text).

(** Outcome of one [write_text]: the file holds the new text, or the call
    raises and leaves [residue] on disk. *)
Inductive WriteOutcome :=
| Written
| WriteFails (e : exn) (residue : FileState).

Record Env := {
  exchange : nat -> Exchange;        (* the k-th HTTP exchange *)
  jitter : nat -> N;                 (* microseconds passing before the k-th clock read *)
  write_outcome : nat -> WriteOutcome (* the k-th write to the file *)
}.

(** Library code outside the repository. *)
Class Lib (QColor : Type) := {
  (* QColor(name): Qt gives an invalid colour for a name it does not know *)
  QColor_named : string -> QColor;
  (* QColor(v) for an argument that is not a string; None is a TypeError *)
  QColor_other : pyval -> option QColor;
  (* QColor.name() *)
  QColor_name : QColor -> string;
  (* email.utils.parsedate_to_datetime; None is a ValueError *)
  parsedate_to_datetime : string -> option datetime;
  (* int(s) on a string; None is a ValueError *)
  int_of_str : string -> option Z;
  (* x + y on two floats, in the whole microseconds timedelta(seconds=x + y)
     rounds the machine's sum to *)
  float_sum : Z -> Z -> Z
}.

(** Observable actions of the sync thread, with the clock at their start. *)
Inductive Event :=
| Request (issued completed : Z)
| Sleep (from secs : Z).

(** [disk] is the settings file [CONFIG_FILE]; [offset_log] is what the log
    file [LOG_FILE] holds of the offsets: the values [_ntp_loop] has logged
    at level INFO, which [logging.FileHandler(LOG_FILE)] writes. *)
Record World := {
  clock : Z;
  reads : nat;
  sent : nat;
  writes : nat;
  disk : FileState;
  events : list Event;
  offset_log : list Z
}.

(** ** The clock object *)

Section Model.

Context {QColor : Type} {lib : Lib QColor}.
Variable env : Env.

(** The attributes of [DigitalClock] the core reads and writes.  [offset]
    is only ever assigned a float; the settings attributes hold whatever
    [_load] found in the file; [pos] is the widget position ([x()], [y()]). *)
Record DigitalClock := {
  time_pt : pyval;
  spacing : pyval;
  opacity : pyval;
  topmost : pyval;
  color : QColor;
  offset : Z;
  manual_offset : pyval;
  pos : Z * Z
}.

Record State := { self : DigitalClock; world : World }.

Definition set_time_pt (v : pyval) (c : DigitalClock) : DigitalClock :=
  {| time_pt := v; spacing := spacing c; opacity := opacity c; topmost := topmost c;
     color := color c; offset := offset c; manual_offset := manual_offset c; pos := pos c |}.

Definition set_spacing (v : pyval) (c : DigitalClock) : DigitalClock :=
  {| time_pt := time_pt c; spacing := v; opacity := opacity c; topmost := topmost c;
     color := color c; offset := offset c; manual_offset := manual_offset c; pos := pos c |}.

Definition set_opacity (v : pyval) (c : DigitalClock) : DigitalClock :=
  {| time_pt := time_pt c; spacing := spacing c; opacity := v; topmost := topmost c;
     color := color c; offset := offset c; manual_offset := manual_offset c; pos := pos c |}.

Definition set_topmost (v : pyval) (c : DigitalClock) : DigitalClock :=
  {| time_pt := time_pt c; spacing := spacing c; opacity := opacity c; topmost := v;
     color := color c; offset := offset c; manual_offset := manual_offset c; pos := pos c |}.

Definition set_color (q : QColor) (c : DigitalClock) : DigitalClock :=
  {| time_pt := time_pt c; spacing := spacing c; opacity := opacity c; topmost := topmost c;
     color := q; offset := offset c; manual_offset := manual_offset c; pos := pos c |}.

Definition set_offset (f : Z) (c : DigitalClock) : DigitalClock :=
  {| time_pt := time_pt c; spacing := spacing c; opacity := opacity c; topmost := topmost c;
     color := color c; offset := f; manual_offset := manual_offset c; pos := pos c |}.

Definition set_manual_offset (v : pyval) (c : DigitalClock) : DigitalClock :=
  {| time_pt := time_pt c; spacing := spacing c; opacity := opacity c; topmost := topmost c;
     color := color c; offset := offset c; manual_offset := v; pos := pos c |}.

Definition set_pos (p : Z * Z) (c : DigitalClock) : DigitalClock :=
  {| time_pt := time_pt c; spacing := spacing c; opacity := opacity c; topmost := topmost c;
     color := color c; offset := offset c; manual_offset := manual_offset c; pos := p |}.

(** The attribute values [__init__] assigns before it calls [_load];
    [p] is where the window system first puts the widget. *)
Definition defaults (p : Z * Z) : DigitalClock :=
  {| time_pt := PFloat 10000000;
     spacing := PFloat 2000000;
     opacity := PFloat 90000000;
     topmost := PBool true;
     color := QColor_named "white";
     offset := 0;
     manual_offset := PFloat 0;
     pos := p |}.

(** ** Computations that may raise *)

Definition M (A : Type) : Type := State -> result A * State.

Definition ret {A} (a : A) : M A := fun s => (Return a, s).

Definition raise {A} (e : exn) : M A := fun s => (Raise e, s).

Definition bind {A B} (m : M A) (k : A -> M B) : M B :=
  fun s => match m s with
           | (Return a, s') => k a s'
           | (Raise e, s') => (Raise e, s')
           | (Exit c, s') => (Exit c, s')
           end.

(** The process ends with status [c]. *)
Definition exits {A} (c : Z) : M A := fun s => (Exit c, s).

(** The outcome of a call that touches neither the object nor the world. *)
Definition outcome_of {A} (r : result A) : M A := fun s => (r, s).

Definition pass : M unit := ret tt.

(** One [except C:] clause: the class test and the handler's body. *)
Definition handler (A : Type) : Type := ((exn -> bool) * M A)%type.

Fixpoint dispatch {A} (hs : list (handler A)) (e : exn) : M A :=
  match hs with
  | [] => raise e
  | (cls, h) :: hs' => if cls e then h else dispatch hs' e
  end.

Definition try_except {A} (body : M A) (hs : list (handler A)) : M A :=
  fun s => match body s with
           | (Return a, s') => (Return a, s')
           | (Raise e, s') => dispatch hs e s'
           | (Exit c, s') => (Exit c, s')
           end.

Definition of_option {A} (o : option A) (e : exn) : M A :=
  match o with Some a => ret a | None => raise e end.

Definition get_self : M DigitalClock := fun s => (Return (self s), s).

Definition modify_self (f : DigitalClock -> DigitalClock) : M unit :=
  fun s => (Return tt, {| self := f (self s); world := world s |}).

Definition get_world : M World := fun s => (Return (world s), s).

Definition put_world (w : World) : M unit :=
  fun s => (Return tt, {| self := self s; world := w |}).

End Model.

Arguments DigitalClock QColor : clear implicits.
Arguments State QColor : clear implicits.
Arguments M QColor A : clear implicits.
Arguments handler QColor A : clear implicits.

Declare Scope py_scope.
Delimit Scope py_scope with py.
Notation "x <- m ;; k" := (bind m (fun x => k))
  (at level 100, m at next level, right associativity) : py_scope.
Notation "m ;; k" := (bind m (fun _ => k))
  (at level 100, right associativity) : py_scope.

#[local] Open Scope py_scope.

Section Program.

Context {QColor : Type} {lib : Lib QColor}.
Variable env : Env.

#[local] Abbreviation M := (M QColor).

(** ** System and library calls *)

(** [dt.datetime.now(dt.UTC)] *)
Definition datetime_now : M aware :=
  w <- get_world ;;
  let t := clock w + Z.of_N (jitter env (reads w)) in
  put_world {| clock := t; reads := S (reads w); sent := sent w; writes := writes w;
               disk := disk w; events := events w; offset_log := offset_log w |} ;;
  ret (Aware t UTC).

(** [requests.head(SYNC_URL, timeout=5)], returning [r.headers] *)
Definition requests_head : M (gmap string string) :=
  w <- get_world ;;
  let x := exchange env (sent w) in
  let t := clock w + Z.of_N (took x) in
  put_world {| clock := t; reads := reads w; sent := S (sent w); writes := writes w;
               disk := disk w; events := events w ++ [Request (clock w) t];
               offset_log := offset_log w |} ;;
  match outcome x with
  | Responds headers => ret headers
  | Fails e => raise e
  end.

(** [time.sleep(secs)] *)
Definition time_sleep (secs : Z) : M unit :=
  w <- get_world ;;
  put_world {| clock := clock w + secs * million; reads := reads w; sent := sent w;
               writes := writes w; disk := disk w;
               events := events w ++ [Sleep (clock w) secs];
               offset_log := offset_log w |}.

(** [a - b] on datetimes, [b] aware: a timedelta in microseconds, or the
    TypeError of mixing a naive and an aware datetime. *)
Definition datetime_sub (a : datetime) (b : aware) : M Z :=
  match a with
  | WithTz a' => ret (instant a' - instant b)
  | Naive _ => raise TypeError
  end.

(** [timedelta.total_seconds()] *)
Definition total_seconds (td : Z) : Z := td.

(** [x + v] for a float [x], as [timedelta(seconds=x + v)] takes it *)
Definition float_add (x : Z) (v : pyval) : M Z :=
  y <- of_option (as_float v) TypeError ;; ret (float_sum x y).

(** [logger.info] of the offset as [_ntp_loop] formats it, [{self.offset:.6f}] *)
Definition log_offset : M unit :=
  me <- get_self ;;
  w <- get_world ;;
  put_world {| clock := clock w; reads := reads w; sent := sent w; writes := writes w;
               disk := disk w; events := events w;
               offset_log := offset_log w ++ [offset me] |}.

(** [CONFIG_FILE.exists()], [CONFIG_FILE.read_text()], [CONFIG_FILE.write_text(t)] *)
Definition path_exists : M bool :=
  w <- get_world ;;
  match disk w with
  | Absent => ret false
  | Inaccessible e => raise e
  | _ => ret true
  end.

Definition read_text : M text :=
  w <- get_world ;;
  match disk w with
  | Content t => ret t
  | Unreadable e => raise e
  | Inaccessible e => raise e
  | Absent => raise OSError
  end.

Definition write_text (t : text) : M unit :=
  w <- get_world ;;
  match write_outcome env (writes w) with
  | Written =>
      put_world {| clock := clock w; reads := reads w; sent := sent w;
                   writes := S (writes w); disk := Content t; events := events w;
                   offset_log := offset_log w |}
  | WriteFails e residue =>
      put_world {| clock := clock w; reads := reads w; sent := sent w;
                   writes := S (writes w); disk := residue; events := events w;
                   offset_log := offset_log w |} ;;
      raise e
  end.

Definition json_dumps (v : pyval) : text := JsonText v.

Definition json_loads (t : text) : M pyval :=
  match t with
  | JsonText v => ret v
  | Garbage _ => raise JSONDecodeError
  end.

(** [d.get(k, dflt)]: only a dict has the method. *)
Definition dict_get (d : pyval) (k : string) (dflt : pyval) : M pyval :=
  match d with
  | PDict m => ret (default dflt (m !! k))
  | _ => raise AttributeError
  end.

(** [QColor(v)] *)
Definition QColor_new (v : pyval) : M QColor :=
  match v with
  | PStr s => ret (QColor_named s)
  | _ => of_option (QColor_other v) TypeError
  end.

(** [int(v)] *)
Definition py_int (v : pyval) : M Z :=
  match v with
  | PInt z => ret z
  | PBool b => ret (if b then 1 else 0)
  | PFloat f => ret (Z.quot f million)
  | PStr s => of_option (int_of_str s) ValueError
  | _ => raise TypeError
  end.

(** [QPoint(x, y)]: the coordinates are C ints.  For an integer that does
    not fit, the binding hands its OverflowError to [sys.excepthook], which
    is [handle_exception]. *)
Definition fits_int (z : Z) : bool := (-2147483648 <=? z) && (z <=? 2147483647).

Definition QPoint (x y : Z) : M (Z * Z) :=
  if fits_int x && fits_int y then ret (x, y)
  else exits (handle_exception OverflowError).

(** ** Time synchronisation: [fetch_ntp] *)

Definition fetch_ntp : M datetime :=
  r <- try_except
         (headers <- requests_head ;;
          match headers !! "Date" with
          | Some date =>
              ntp_time <- of_option (parsedate_to_datetime date) ValueError ;;
              ret (Some ntp_time)
          | None => ret None
          end)
         [ (is_Timeout, ret None);
           (is_ConnectionError, ret None);
           (is_RequestException, ret None);
           (is_Exception, ret None) ] ;;
  match r with
  | Some ntp_time => ret ntp_time
  | None =>
      local_utc_time <- datetime_now ;;
      ret (WithTz local_utc_time)
  end.

(** ** [DigitalClock._now] *)

Definition _now : M aware :=
  current_utc <- datetime_now ;;
  me <- get_self ;;
  secs <- float_add (offset me) (manual_offset me) ;;
  td <- outcome_of (timedelta_seconds secs) ;;
  adjusted_utc <- outcome_of (datetime_add current_utc td) ;;
  local_time <- outcome_of (astimezone adjusted_utc (hours 8)) ;;
  ret local_time.

(** ** [DigitalClock._ntp_loop] *)

(** The body of [while True:]. *)
Definition ntp_loop_body : M unit :=
  try_except
    (ntp_dt <- fetch_ntp ;;
     current_utc <- datetime_now ;;
     delta <- datetime_sub ntp_dt current_utc ;;
     modify_self (set_offset (total_seconds delta)) ;;
     log_offset)
    [ (is_Exception, pass) ] ;;
  time_sleep 600.

(** [fuel] iterations of the loop.  The loop has no [break] and no
    [return]: [Return tt] means the fuel ran out with the loop still
    running, anything else that the loop has ended. *)
Fixpoint _ntp_loop (fuel : nat) : M unit :=
  match fuel with
  | O => ret tt
  | S n => ntp_loop_body ;; _ntp_loop n
  end.

(** ** [DigitalClock._save] *)

Definition save_data (me : DigitalClock QColor) : gmap string pyval :=
  list_to_map
    [ ("font", time_pt me);
      ("opacity", opacity me);
      ("spacing", spacing me);
      ("color", PStr (QColor_name (color me)));
      ("top", topmost me);
      ("offset", manual_offset me);
      ("pos", PList [PInt (fst (pos me)); PInt (snd (pos me))]) ].

Definition _save : M unit :=
  try_except
    (me <- get_self ;;
     let data := save_data me in
     write_text (json_dumps (PDict data)))
    [ (is_Exception, pass) ].

(** ** [DigitalClock._load] *)

Definition load_pos (pos_list : pyval) : M unit :=
  if truthy pos_list then
    match pos_list with
    | PList [a; b] =>
        try_except
          (x <- py_int a ;;
           y <- py_int b ;;
           p <- QPoint x y ;;
           modify_self (set_pos p))
          [ (is_ValueError, pass) ]
    | _ => pass
    end
  else pass.

Definition _load : M unit :=
  present <- path_exists ;;
  if present : bool then
    try_except
      (raw_data <- read_text ;;
       d <- json_loads raw_data ;;
       me <- get_self ;;
       v <- dict_get d "font" (time_pt me) ;;
       modify_self (set_time_pt v) ;;
       me <- get_self ;;
       v <- dict_get d "opacity" (opacity me) ;;
       modify_self (set_opacity v) ;;
       me <- get_self ;;
       v <- dict_get d "spacing" (spacing me) ;;
       modify_self (set_spacing v) ;;
       me <- get_self ;;
       v <- dict_get d "color" (PStr (QColor_name (color me))) ;;
       q <- QColor_new v ;;
       modify_self (set_color q) ;;
       me <- get_self ;;
       v <- dict_get d "top" (topmost me) ;;
       modify_self (set_topmost v) ;;
       v <- dict_get d "offset" (PFloat 0) ;;
       modify_self (set_manual_offset v) ;;
       pos_list <- dict_get d "pos" PNone ;;
       load_pos pos_list)
      [ (is_JSONDecodeError, pass);
        (is_Exception, pass) ]
  else pass.

End Program.

#[local] Close Scope py_scope.

(** ** A test double for the library and the environment *)

Module Mock.

(** Colours as 24-bit RGB triples, or Qt's invalid colour. *)
Inductive rgb :=
| Rgb (r g b : Z)
| Invalid.

Definition hex_digits : list ascii :=
  String.list_ascii_of_string "0123456789abcdef".

Definition hex_digit (n : Z) : ascii :=
  nth (Z.to_nat n) hex_digits "0"%char.

Definition hex2 (n : Z) : string :=
  String (hex_digit (n / 16)) (String (hex_digit (n mod 16)) EmptyString).

Fixpoint index_of (c : ascii) (l : list ascii) (i : Z) : option Z :=
  match l with
  | [] => None
  | x :: l' => if Ascii.eqb c x then Some i else index_of c l' (i + 1)
  end.

Definition unhex2 (hi lo : ascii) : option Z :=
  match index_of hi hex_digits 0, index_of lo hex_digits 0 with
  | Some h, Some l => Some (16 * h + l)
  | _, _ => None
  end.

Definition name (c : rgb) : string :=
  match c with
  | Rgb r g b => String "#"%char (hex2 r +:+ hex2 g +:+ hex2 b)
  | Invalid => "#000000"
  end.

Definition named (s : string) : rgb :=
  if String.eqb s "white" then Rgb 255 255 255
  else match s with
       | String "#" (String r1 (String r0 (String g1 (String g0
           (String b1 (String b0 EmptyString)))))) =>
           match unhex2 r1 r0, unhex2 g1 g0, unhex2 b1 b0 with
           | Some r, Some g, Some b => Rgb r g b
           | _, _, _ => Invalid
           end
       | _ => Invalid
       end.

(** Two dates the parser knows: one in GMT, one with the [-0000] zone that
    [parsedate_to_datetime] turns into a naive datetime. *)
Definition parsedate (s : string) : option datetime :=
  if String.eqb s "Thu, 01 Jan 1970 00:00:10 GMT"
  then Some (WithTz (Aware 10000000 0))
  else if String.eqb s "Thu, 01 Jan 1970 00:00:10 -0000"
  then Some (Naive 10000000)
  else None.

Fixpoint digits (s : string) (acc : Z) : option Z :=
  match s with
  | EmptyString => Some acc
  | String c s' =>
      match index_of c (firstn 10 hex_digits) 0 with
      | Some d => digits s' (10 * acc + d)
      | None => None
      end
  end.

Definition int_of (s : string) : option Z :=
  match s with
  | EmptyString => None
  | String "-" s' => match s' with
                     | EmptyString => None
                     | _ => option_map Z.opp (digits s' 0)
                     end
  | _ => digits s 0
  end.

#[global] Instance lib : Lib rgb := {|
  QColor_named := named;
  QColor_other := fun _ => None;
  QColor_name := name;
  parsedate_to_datetime := parsedate;
  int_of_str := int_of;
  float_sum := Z.add
|}.

(** An environment in which every request has the outcome [o] and lasts
    [d] microseconds, [j] microseconds pass before every clock read, and
    every write has the outcome [wo]. *)
Definition env (o : HttpOutcome) (d j : N) (wo : WriteOutcome) : Env :=
  {| exchange := fun _ => {| outcome := o; took := d |};
     jitter := fun _ => j;
     write_outcome := fun _ => wo |}.

Definition world0 (f : FileState) : World :=
  {| clock := 0; reads := 0; sent := 0; writes := 0; disk := f; events := [];
     offset_log := [] |}.

Definition state0 (f : FileState) : State rgb :=
  {| self := defaults (0, 0); world := world0 f |}.

(** Sample inputs. *)

Definition gmt_date : string := "Thu, 01 Jan 1970 00:00:10 GMT".

(** The request times out after 5 seconds; clock reads take no time. *)
Definition timeout_env : Env := env (Fails Timeout) 5000000 0 Written.

(** The server answers after 2 seconds with [gmt_date]. *)
Definition slow_server_env : Env :=
  env (Responds {[ "Date" := gmt_date ]}) 2000000 0 Written.

(** The server answers without a Date header; the connection is refused. *)
Definition no_header_env : Env := env (Responds ∅) 100000 0 Written.

Definition refused_env : Env := env (Fails ConnectionError) 1000 0 Written.

(** Every write fails and leaves an empty file. *)
Definition disk_full_env : Env :=
  env (Fails Timeout) 0 0 (WriteFails OSError (Content (Garbage ""))).

(** A clock whose last synchronisation found the server 5 seconds ahead. *)
Definition synced : State rgb :=
  {| self := set_offset 5000000 (defaults (0, 0)); world := world0 Absent |}.

(** A populated settings record. *)
Definition sample : DigitalClock rgb :=
  {| time_pt := PFloat 12500000;
     spacing := PFloat 3000000;
     opacity := PFloat 80000000;
     topmost := PBool false;
     color := Rgb 18 52 171;
     offset := 5000000;
     manual_offset := PFloat 1500000;
     pos := (100, 200) |}.



(** A settings file whose position lies beyond the C integers. *)
Definition far_pos_file : gmap string pyval :=
  {[ "pos" := PList [PInt 3000000000; PInt 5] ]}.

(** A clock whose manual offset is 10^12 seconds. *)
Definition far_offset : State rgb :=
  {| self := set_manual_offset (PFloat (1000000000000 * million)) (defaults (0, 0));
     world := world0 Absent |}.

End Mock.

(** ** Vocabulary of the specification *)

Section Vocabulary.

Context {QColor : Type} {lib : Lib QColor}.

(** The specification's tagged outcome of one synchronisation attempt:
    [Success] with the server's instant when the response carries a [Date]
    header that parses, [Failure] with the reason otherwise. *)
Inductive Reason :=
| RequestFailed (e : exn)
| MissingHeader
| MalformedHeader.

Inductive SyncResult :=
| Success (server_instant : datetime)
| Failure (reason : Reason).

Definition sync_result (o : HttpOutcome) : SyncResult :=
  match o with
  | Fails e => Failure (RequestFailed e)
  | Responds headers =>
      match headers !! "Date" with
      | None => Failure MissingHeader
      | Some date =>
          match parsedate_to_datetime date with
          | None => Failure MalformedHeader
          | Some d => Success d
          end
      end
  end.

(** The exchange the next request of [w] will get, and the clock readings
    around it. *)
Definition next_exchange (env : Env) (w : World) : Exchange :=
  exchange env (sent w).

(** The local instant when the attempt starts, before the request. *)
Definition local_instant_before (w : World) : Z := clock w.

(** The instant the request has completed. *)
Definition request_done (env : Env) (w : World) : Z :=
  clock w + Z.of_N (took (next_exchange env w)).

(** The first and the second clock reading taken after the request. *)
Definition first_reading (env : Env) (w : World) : Z :=
  request_done env w + Z.of_N (jitter env (reads w)).

Definition second_reading (env : Env) (w : World) : Z :=
  first_reading env w + Z.of_N (jitter env (S (reads w))).

(** The trace of a run of the sync loop that starts with the clock at [t]
    and ends with the clock at [t']: each attempt is a request issued at the
    current clock and completed later, then a pause of 600 seconds that
    starts after the request has completed, and the next attempt is issued
    at the instant the pause ends. *)
Inductive schedule : Z -> list Event -> Z -> Prop :=
| schedule_done t : schedule t [] t
| schedule_attempt t completed from evs t' :
    t <= completed ->
    completed <= from ->
    schedule (from + 600 * million) evs t' ->
    schedule t (Request t completed :: Sleep from 600 :: evs) t'.

(** [w] after one more attempt: the request, the clock readings [k] of the
    attempt, the lines [logged], then the pause that starts at [t]. *)
Definition after_attempt (env : Env) (w : World) (k : nat) (logged : list Z) (t : Z)
  : World :=
  {| clock := t + 600 * million;
     reads := (reads w + k)%nat;
     sent := S (sent w);
     writes := writes w;
     disk := disk w;
     events := (events w ++ [Request (clock w) (request_done env w)])
               ++ [Sleep t 600];
     offset_log := offset_log w ++ logged |}.

(** [w] with the configuration file in state [f]. *)
Definition with_disk (f : FileState) (w : World) : World :=
  {| clock := clock w; reads := reads w; sent := sent w; writes := writes w;
     disk := f; events := events w; offset_log := offset_log w |}.

(** [w] after one more [write_text] that left [f] on disk. *)
Definition after_write (f : FileState) (w : World) : World :=
  {| clock := clock w; reads := reads w; sent := sent w; writes := S (writes w);
     disk := f; events := events w; offset_log := offset_log w |}.

(** The keys of the settings file. *)
Definition settings_keys : list string :=
  ["font"; "opacity"; "spacing"; "color"; "top"; "offset"; "pos"].







(** The integer [int(v)] returns, when it returns. *)
Definition int_value (v : pyval) : option Z :=
  match v with
  | PInt z => Some z
  | PBool b => Some (if b then 1 else 0)
  | PFloat f => Some (Z.quot f million)
  | PStr s => int_of_str s
  | _ => None
  end.

(** The file [m] asks for no position outside the window system's
    coordinates: when [pos] is a pair that [int] converts, both integers
    fit. *)
Definition pos_fits (m : gmap string pyval) : bool :=
  match m !! "pos" with
  | Some (PList [a; b]) =>
      match int_value a, int_value b with
      | Some x, Some y => fits_int x && fits_int y
      | _, _ => true
      end
  | _ => true
  end.


(** The clock object after the six attribute assignments of [_load] from
    the dict [d], the colour being built from the name [c]. *)
Definition loaded_fields (me : DigitalClock QColor) (d : gmap string pyval) (c : string)
  : DigitalClock QColor :=
  set_manual_offset (default (PFloat 0) (d !! "offset"))
    (set_topmost (default (topmost me) (d !! "top"))
       (set_color (QColor_named c)
          (set_spacing (default (spacing me) (d !! "spacing"))
             (set_opacity (default (opacity me) (d !! "opacity"))
                (set_time_pt (default (time_pt me) (d !! "font")) me))))).

(** A computation that leaves the world as it is: it may read it, and it
    may assign attributes of the clock object. *)
Definition keeps_world {A} (m : M QColor A) : Prop :=
  forall st, world (snd (m st)) = world st.

End Vocabulary.

(** ** The window: style, ticks, dragging, the settings dialog, start and exit *)

(** A font as the program builds it: the default font of a new label, or
    [QFont("Noto Sans SC")] after [setPointSizeF(pt)] and, for the labels,
    [setBold(True)]. *)
Inductive Font :=
| DefaultFont
| NotoSansSC (bold : bool) (pt : pyval).

(** More library code: what the Qt and [datetime] calls of the window code
    answer. *)

Class Toolkit (QColor : Type) := {
  (* QColor.isValid() *)
  QColor_isValid : QColor -> bool;
  (* bool(p) for a QPoint p, as tested by [if self.drag_pos:] *)
  QPoint_bool : Z * Z -> bool;
  (* whether a Python bool is taken where Qt expects a float *)
  bool_as_float : bool;
  (* QAbstractButton.setChecked(v): the state it sets; None is a TypeError *)
  checked_of : pyval -> option bool;
  (* QFontMetrics(f).height() *)
  QFontMetrics_height : Font -> Z;
  (* QFontMetrics(f).horizontalAdvance(s) *)
  horizontalAdvance : Font -> string -> Z;
  (* now.year, now.month, now.day *)
  datetime_ymd : aware -> Z * Z * Z;
  (* now.strftime("%H:%M:%S") *)
  strftime_HMS : aware -> string;
  (* what windowFlags() answers after setWindowFlags(f) *)
  flags_reported : Z -> Z;
  (* what width() answers after setFixedWidth(w), height() after setFixedHeight(h) *)
  width_reported : Z -> Z;
  height_reported : Z -> Z
}.

Inductive Label :=
| date_lbl
| time_lbl.

(** Calls whose effect the program never reads back. *)
Inductive QtCall :=
| SetStyleSheet (l : Label) (css : string)
| SetText (l : Label) (s : string)
| SetSpacing (n : Z)
| SetWindowOpacity (hundred_millionths : Z)
| StartTimer (ms : Z)
| StartThread
| Quit.

Inductive MouseButton :=
| LeftButton
| RightButton
| MiddleButton.

(** A mouse event: [e.button()] and [e.globalPosition().toPoint()]. *)
Record MouseEvent := { button : MouseButton; globalPosition : Z * Z }.

Inductive ActivationReason :=
| Trigger
| Context
| DoubleClick
| MiddleClick
| Unknown.

(** The two source files differ in [SettingsDialog.accept] only. *)
Inductive SourceFile :=
| TimeClockWindows
| TimeClockWindowsNotes.

(** Qt.FramelessWindowHint, Qt.WindowStaysOnTopHint, Qt.Widget *)
Definition FramelessWindowHint : Z := 2048.

Definition WindowStaysOnTopHint : Z := 262144.

Definition Widget : Z := 0.

(** Arithmetic of the style code on a Python value. *)

(** [v - k] for an int literal [k] *)
Definition py_sub_int (v : pyval) (k : Z) : result pyval :=
  match v with
  | PFloat f => Return (PFloat (f - k * million))
  | PInt z => Return (PInt (z - k))
  | PBool b => Return (PInt ((if b then 1 else 0) - k))
  | _ => Raise TypeError
  end.

(** [max(v, k)] for an int literal [k]: [k] when [k > v], else [v] *)
Definition py_max_int (v : pyval) (k : Z) : result pyval :=
  match v with
  | PFloat f => Return (if f <? k * million then PInt k else PFloat f)
  | PInt z => Return (if z <? k then PInt k else PInt z)
  | PBool b => Return (if (if b then 1 else 0) <? k then PInt k else PBool b)
  | _ => Raise TypeError
  end.

(** [v / 100], in hundred-millionths *)
Definition py_div_100 (v : pyval) : result Z :=
  match as_float v with
  | Some f => Return f
  | None => Raise TypeError
  end.

(** [v * 10] *)
Fixpoint repeat_string (n : nat) (s : string) : string :=
  match n with
  | O => EmptyString
  | S n' => s +:+ repeat_string n' s
  end.

Definition py_mul_10 (v : pyval) : result pyval :=
  match v with
  | PFloat f => Return (PFloat (f * 10))
  | PInt z => Return (PInt (z * 10))
  | PBool b => Return (PInt (if b then 10 else 0))
  | PStr s => Return (PStr (repeat_string 10 s))
  | PList l => Return (PList (concat (replicate 10 l)))
  | PNone | PDict _ => Raise TypeError
  end.

Section Shell.

Context {QColor : Type} {lib : Lib QColor} {tk : Toolkit QColor}.
Variable env : Env.

(** The window around the clock object: [app] holds the attributes and
    the world of the core; the rest is what the window code reads back from
    itself or from Qt. *)
Record Shell := {
  app : State QColor;
  drag_pos : option (Z * Z);
  hidden : bool;                 (* isHidden() *)
  window_flags : Z;              (* windowFlags() *)
  win_size : Z * Z;              (* width(), height() *)
  date_font : Font;              (* date_lbl.font() *)
  time_font : Font;              (* time_lbl.font() *)
  calls : list QtCall
}.

Definition G (A : Type) : Type := Shell -> result A * Shell.

Definition gret {A} (a : A) : G A := fun sh => (Return a, sh).

Definition graise {A} (e : exn) : G A := fun sh => (Raise e, sh).

Definition gbind {A B} (m : G A) (k : A -> G B) : G B :=
  fun sh => match m sh with
            | (Return a, sh') => k a sh'
            | (Raise e, sh') => (Raise e, sh')
            | (Exit c, sh') => (Exit c, sh')
            end.

Definition of_result {A} (r : result A) : G A := fun sh => (r, sh).

Definition with_app (st : State QColor) (sh : Shell) : Shell :=
  {| app := st; drag_pos := drag_pos sh; hidden := hidden sh;
     window_flags := window_flags sh; win_size := win_size sh;
     date_font := date_font sh; time_font := time_font sh; calls := calls sh |}.

(** A computation of the core, run inside the window. *)
Definition lift {A} (m : M QColor A) : G A :=
  fun sh => let (r, st) := m (app sh) in (r, with_app st sh).

Definition get_shell : G Shell := fun sh => (Return sh, sh).

Definition put_shell (sh : Shell) : G unit := fun _ => (Return tt, sh).

Definition set_drag_pos (d : option (Z * Z)) (sh : Shell) : Shell :=
  {| app := app sh; drag_pos := d; hidden := hidden sh;
     window_flags := window_flags sh; win_size := win_size sh;
     date_font := date_font sh; time_font := time_font sh; calls := calls sh |}.

Definition set_hidden (h : bool) (sh : Shell) : Shell :=
  {| app := app sh; drag_pos := drag_pos sh; hidden := h;
     window_flags := window_flags sh; win_size := win_size sh;
     date_font := date_font sh; time_font := time_font sh; calls := calls sh |}.

Definition set_size (wh : Z * Z) (sh : Shell) : Shell :=
  {| app := app sh; drag_pos := drag_pos sh; hidden := hidden sh;
     window_flags := window_flags sh; win_size := wh;
     date_font := date_font sh; time_font := time_font sh; calls := calls sh |}.

Definition set_date_font (fd : Font) (sh : Shell) : Shell :=
  {| app := app sh; drag_pos := drag_pos sh; hidden := hidden sh;
     window_flags := window_flags sh; win_size := win_size sh;
     date_font := fd; time_font := time_font sh; calls := calls sh |}.

Definition set_time_font (ft : Font) (sh : Shell) : Shell :=
  {| app := app sh; drag_pos := drag_pos sh; hidden := hidden sh;
     window_flags := window_flags sh; win_size := win_size sh;
     date_font := date_font sh; time_font := ft; calls := calls sh |}.

Definition modify_shell (f : Shell -> Shell) : G unit :=
  fun sh => (Return tt, f sh).

Definition call (c : QtCall) : G unit :=
  fun sh => (Return tt,
             {| app := app sh; drag_pos := drag_pos sh; hidden := hidden sh;
                window_flags := window_flags sh; win_size := win_size sh;
                date_font := date_font sh; time_font := time_font sh;
                calls := calls sh ++ [c] |}).

(** [self.setWindowFlags(f)]: Qt hides the window when it changes the
    flags. *)
Definition setWindowFlags (f : Z) : G unit :=
  fun sh => (Return tt,
             {| app := app sh; drag_pos := drag_pos sh; hidden := true;
                window_flags := flags_reported f; win_size := win_size sh;
                date_font := date_font sh; time_font := time_font sh;
                calls := calls sh |}).

(** [self.show()], [self.showNormal()], [self.hide()] *)
Definition show : G unit := modify_shell (set_hidden false).

Definition showNormal : G unit := modify_shell (set_hidden false).

Definition hide : G unit := modify_shell (set_hidden true).

(** A float argument of a Qt call. *)
Definition float_arg (v : pyval) : G unit :=
  match v with
  | PFloat _ | PInt _ => gret tt
  | PBool _ => if bool_as_float then gret tt else graise TypeError
  | _ => graise TypeError
  end.

(** An int argument of a Qt call: a C int. *)
Definition int_arg (n : Z) : G unit :=
  if fits_int n then gret tt else graise OverflowError.

(** [self.setFixedWidth(w)], [self.setFixedHeight(h)] *)
Definition setFixedWidth (w : Z) : G unit :=
  gbind (int_arg w)
        (fun _ => modify_shell (fun sh => set_size (width_reported w, snd (win_size sh)) sh)).

Definition setFixedHeight (h : Z) : G unit :=
  gbind (int_arg h)
        (fun _ => modify_shell (fun sh => set_size (fst (win_size sh), height_reported h) sh)).

End Shell.

Arguments Shell QColor : clear implicits.
Arguments G QColor A : clear implicits.

Declare Scope gui_scope.
Delimit Scope gui_scope with gui.
Notation "x <- m ;; k" := (gbind m (fun x => k))
  (at level 100, m at next level, right associativity) : gui_scope.
Notation "m ;; k" := (gbind m (fun _ => k))
  (at level 100, right associativity) : gui_scope.

#[local] Open Scope gui_scope.

Section Window.

Context {QColor : Type} {lib : Lib QColor} {tk : Toolkit QColor}.
Variable env : Env.

#[local] Abbreviation G := (G QColor).
#[local] Abbreviation Shell := (Shell QColor).

Definition get_me : G (DigitalClock QColor) :=
  fun sh => (Return (self (app sh)), sh).

Definition modify_me (f : DigitalClock QColor -> DigitalClock QColor) : G unit :=
  lift (modify_self f).

(** *** [DigitalClock._apply_style] *)

(** The two files build the two fonts in a different order:
    [TimeClockWindows.py] sets both point sizes and then gives the labels
    their fonts, [TimeClockWindowsNotes.py] gives the date label its font
    before it builds the second font. *)
Definition set_label_fonts (file : SourceFile) (date_pt time_pt : pyval) : G unit :=
  match file with
  | TimeClockWindows =>
      float_arg date_pt ;;
      float_arg time_pt ;;
      modify_shell (set_date_font (NotoSansSC true date_pt)) ;;
      modify_shell (set_time_font (NotoSansSC true time_pt))
  | TimeClockWindowsNotes =>
      float_arg date_pt ;;
      modify_shell (set_date_font (NotoSansSC true date_pt)) ;;
      float_arg time_pt ;;
      modify_shell (set_time_font (NotoSansSC true time_pt))
  end.

Definition _apply_style (file : SourceFile) : G unit :=
  me <- get_me ;;
  t <- of_result (py_sub_int (time_pt me) 1) ;;
  date_pt <- of_result (py_max_int t 1) ;;
  set_label_fonts file date_pt (time_pt me) ;;
  let css := "color:" +:+ QColor_name (color me) +:+ "; background: transparent;" in
  call (SetStyleSheet date_lbl css) ;;
  call (SetStyleSheet time_lbl css) ;;
  n <- lift (py_int (spacing me)) ;;
  int_arg n ;;
  call (SetSpacing n) ;;
  o <- of_result (py_div_100 (opacity me)) ;;
  call (SetWindowOpacity o) ;;
  sh <- get_shell ;;
  let current_flags := window_flags sh in
  let desired_flags :=
    Z.lor FramelessWindowHint
          (if truthy (topmost me) then WindowStaysOnTopHint else Widget) in
  if negb (current_flags =? desired_flags)
  then setWindowFlags desired_flags ;; show
  else gret tt.

(** *** [DigitalClock._font_h] and [DigitalClock._tick] *)

Definition _font_h (pt : pyval) : G Z :=
  float_arg pt ;;
  gret (QFontMetrics_height (NotoSansSC false pt) + 2).

(** [f"{now.year}年{now.month}月{now.day}日"] *)
Definition date_text_of (now : aware) : string :=
  match datetime_ymd now with
  | (y, m, d) => pretty y +:+ "年" +:+ pretty m +:+ "月" +:+ pretty d +:+ "日"
  end.

(** The margins [__init__] gives the layout: [setContentsMargins(12, 8, 12, 8)]. *)
Definition margin_top : Z := 8.

Definition margin_bottom : Z := 8.

Definition _tick : G unit :=
  now <- lift (_now env) ;;
  let date_text := date_text_of now in
  let time_text := strftime_HMS now in
  call (SetText date_lbl date_text) ;;
  call (SetText time_lbl time_text) ;;
  sh <- get_shell ;;
  let w := Z.max (horizontalAdvance (date_font sh) date_text)
                 (horizontalAdvance (time_font sh) time_text) + 24 in
  me <- get_me ;;
  t <- of_result (py_sub_int (time_pt me) 1) ;;
  h1 <- _font_h t ;;
  h2 <- _font_h (time_pt me) ;;
  n <- lift (py_int (spacing me)) ;;
  let h := h1 + h2 + n + margin_top + margin_bottom in
  if negb (fst (win_size sh) =? w) || negb (snd (win_size sh) =? h)
  then setFixedWidth w ;; setFixedHeight h
  else gret tt.

(** *** The tray icon, closing, and exit *)

Definition _handle_tray_activated (reason : ActivationReason) : G unit :=
  match reason with
  | Trigger =>
      sh <- get_shell ;;
      if hidden sh then showNormal else hide
  | _ => gret tt
  end.

(** [closeEvent]: the event is ignored (the result says whether it was
    accepted) and the window hidden. *)
Definition closeEvent : G bool :=
  hide ;; gret false.

Definition _exit : G unit :=
  lift (_save env) ;;
  call Quit.

(** *** Dragging the window *)

Definition mousePressEvent (e : MouseEvent) : G unit :=
  match button e with
  | LeftButton => modify_shell (set_drag_pos (Some (globalPosition e)))
  | _ => modify_shell (set_drag_pos None)
  end.

Definition point_add (p q : Z * Z) : Z * Z := (fst p + fst q, snd p + snd q).

Definition point_sub (p q : Z * Z) : Z * Z := (fst p - fst q, snd p - snd q).

Definition mouseMoveEvent (e : MouseEvent) : G unit :=
  sh <- get_shell ;;
  match drag_pos sh with
  | Some d =>
      if QPoint_bool d then
        me <- get_me ;;
        let new_pos := point_sub (point_add (pos me) (globalPosition e)) d in
        modify_me (set_pos new_pos) ;;
        modify_shell (set_drag_pos (Some (globalPosition e)))
      else gret tt
  | None => gret tt
  end.

Definition mouseReleaseEvent : G unit :=
  modify_shell (set_drag_pos None).

(** The mouse moving through the global positions [gs], one
    [mouseMoveEvent] each. *)
Fixpoint mouse_moves (gs : list (Z * Z)) : G unit :=
  match gs with
  | [] => gret tt
  | g :: gs' =>
      mouseMoveEvent {| button := LeftButton; globalPosition := g |} ;;
      mouse_moves gs'
  end.

(** *** [SettingsDialog] *)

(** The attributes of the dialog and the state of its check box. *)
Record SettingsDialog := {
  font_size : pyval;
  dlg_opacity : pyval;
  dlg_spacing : pyval;
  dlg_color : QColor;
  dlg_manual_offset : pyval;
  chk_top : bool
}.

(** What the user does while the dialog is open: the colours picked with
    the colour button (as [QColorDialog.getColor] returns them), the values
    the spin boxes show and the state of the check box when the dialog
    closes, and whether it closes with OK. *)
Record Session := {
  picked : list QColor;
  e_font : Z;
  e_opac : Z;
  e_space : Z;
  e_off : Z;
  top_checked : bool;
  accepted : bool
}.

(** [_slider_spin(mn, mx, val, name)]: the slider is set to [int(val * 10)],
    the spin box to [val]. *)
Definition _slider_spin (val : pyval) : G unit :=
  v10 <- of_result (py_mul_10 val) ;;
  n <- lift (py_int v10) ;;
  int_arg n ;;
  float_arg val.

Definition SettingsDialog_init (parent : DigitalClock QColor) : G SettingsDialog :=
  c <- of_result (match checked_of (topmost parent) with
                  | Some b => Return b
                  | None => Raise TypeError
                  end) ;;
  let dlg := {| font_size := time_pt parent;
                dlg_opacity := opacity parent;
                dlg_spacing := spacing parent;
                dlg_color := color parent;
                dlg_manual_offset := manual_offset parent;
                chk_top := c |} in
  _slider_spin (font_size dlg) ;;
  _slider_spin (dlg_opacity dlg) ;;
  _slider_spin (dlg_spacing dlg) ;;
  _slider_spin (dlg_manual_offset dlg) ;;
  gret dlg.

Definition _choose_color (c : QColor) (dlg : SettingsDialog) : SettingsDialog :=
  if QColor_isValid c
  then {| font_size := font_size dlg; dlg_opacity := dlg_opacity dlg;
          dlg_spacing := dlg_spacing dlg; dlg_color := c;
          dlg_manual_offset := dlg_manual_offset dlg; chk_top := chk_top dlg |}
  else dlg.

(** [accept]: only [TimeClockWindowsNotes.py] copies the spin boxes into
    the attributes. *)
Definition accept (file : SourceFile) (s : Session) (dlg : SettingsDialog) : SettingsDialog :=
  match file with
  | TimeClockWindows => dlg
  | TimeClockWindowsNotes =>
      {| font_size := PFloat (e_font s); dlg_opacity := PFloat (e_opac s);
         dlg_spacing := PFloat (e_space s); dlg_color := dlg_color dlg;
         dlg_manual_offset := PFloat (e_off s); chk_top := chk_top dlg |}
  end.

(** [dlg.exec()]: the dialog after the session, and whether it was accepted. *)
Definition exec (file : SourceFile) (s : Session) (dlg : SettingsDialog)
  : SettingsDialog * bool :=
  let dlg1 := fold_left (fun d c => _choose_color c d) (picked s) dlg in
  let dlg2 := {| font_size := font_size dlg1; dlg_opacity := dlg_opacity dlg1;
                 dlg_spacing := dlg_spacing dlg1; dlg_color := dlg_color dlg1;
                 dlg_manual_offset := dlg_manual_offset dlg1;
                 chk_top := top_checked s |} in
  if accepted s then (accept file s dlg2, true) else (dlg2, false).

(** *** [DigitalClock._open_settings] *)

Definition _open_settings (file : SourceFile) (s : Session) : G unit :=
  me <- get_me ;;
  dlg0 <- SettingsDialog_init me ;;
  let (dlg, ok) := exec file s dlg0 in
  if ok : bool then
    modify_me (set_time_pt (font_size dlg)) ;;
    modify_me (set_opacity (dlg_opacity dlg)) ;;
    modify_me (set_spacing (dlg_spacing dlg)) ;;
    modify_me (set_color (dlg_color dlg)) ;;
    modify_me (set_manual_offset (dlg_manual_offset dlg)) ;;
    modify_me (set_topmost (PBool (chk_top dlg))) ;;
    _apply_style file ;;
    lift (_save env)
  else gret tt.

(** *** [DigitalClock.__init__] *)

(** [p] is where the window system puts the new widget; the world, the
    flags and the size are those of the shell it starts from. *)
Definition DigitalClock_init (file : SourceFile) (p : Z * Z) : G unit :=
  sh <- get_shell ;;
  put_shell {| app := {| self := defaults p; world := world (app sh) |};
               drag_pos := None;
               hidden := true;
               window_flags := window_flags sh;
               win_size := win_size sh;
               date_font := DefaultFont;
               time_font := DefaultFont;
               calls := [] |} ;;
  setWindowFlags FramelessWindowHint ;;
  lift _load ;;
  _apply_style file ;;
  call (StartTimer 1000) ;;
  call StartThread.

(** A window computation that assigns no attribute of the clock object. *)
Definition keeps_me {A} (m : G A) : Prop :=
  forall sh, self (app (snd (m sh))) = self (app sh).

(** A window computation that changes nothing at all. *)
Definition keeps_shell {A} (m : G A) : Prop :=
  forall sh, snd (m sh) = sh.

(** The clock object after [_open_settings] has copied the attributes of
    the accepted dialog [dlg]. *)
Definition assigned (dlg : SettingsDialog) (me : DigitalClock QColor) : DigitalClock QColor :=
  set_topmost (PBool (chk_top dlg))
    (set_manual_offset (dlg_manual_offset dlg)
       (set_color (dlg_color dlg)
          (set_spacing (dlg_spacing dlg)
             (set_opacity (dlg_opacity dlg)
                (set_time_pt (font_size dlg) me))))).

(** The colour of the dialog after the picks [cs]: the last valid one, or
    the colour it had. *)
Definition last_valid (cs : list QColor) (c0 : QColor) : QColor :=
  fold_left (fun c p => if QColor_isValid p then p else c) cs c0.

End Window.

Arguments SettingsDialog QColor : clear implicits.
Arguments Session QColor : clear implicits.

#[local] Close Scope gui_scope.

(** A test double for the toolkit, and sample windows. *)

Module MockGui.

#[global] Instance toolkit : Toolkit Mock.rgb := {|
  QColor_isValid := fun c => match c with Mock.Rgb _ _ _ => true | Mock.Invalid => false end;
  QPoint_bool := fun p => negb ((fst p =? 0) && (snd p =? 0));
  bool_as_float := true;
  checked_of := fun v => match v with PBool b => Some b | _ => None end;
  QFontMetrics_height := fun f =>
    match f with
    | NotoSansSC _ (PFloat pt) => 2 * (pt / million)
    | _ => 16
    end;
  horizontalAdvance := fun _ s => 8 * Z.of_nat (String.length s);
  datetime_ymd := fun a => (1970, 1, 1 + wall_clock a / (86400 * million));
  strftime_HMS := fun _ => "08:00:00";
  flags_reported := fun f => f;
  width_reported := fun w => w;
  height_reported := fun h => h
|}.

(** A window that has just been created around the clock [me], with the
    configuration file in state [f]. *)
Definition shell0 (me : DigitalClock Mock.rgb) (f : FileState) : Shell Mock.rgb :=
  {| app := {| self := me; world := Mock.world0 f |};
     drag_pos := None;
     hidden := false;
     window_flags := 0;
     win_size := (0, 0);
     date_font := DefaultFont;
     time_font := DefaultFont;
     calls := [] |}.

(** The user sets 20 pt, 70 %, 5 px and +3 s, picks orange, unchecks
    "topmost" and presses OK. *)
Definition session_ok : Session Mock.rgb :=
  {| picked := [Mock.Invalid; Mock.Rgb 255 128 0];
     e_font := 20000000;
     e_opac := 70000000;
     e_space := 5000000;
     e_off := 3000000;
     top_checked := false;
     accepted := true |}.

(** The same, closed with Cancel. *)
Definition session_cancel : Session Mock.rgb :=
  {| picked := [Mock.Rgb 255 128 0];
     e_font := 20000000;
     e_opac := 70000000;
     e_space := 5000000;
     e_off := 3000000;
     top_checked := false;
     accepted := false |}.

(** A settings file whose font size is a text. *)
Definition text_font_file : gmap string pyval :=
  list_to_map [ ("font", PStr "big"); ("opacity", PFloat 80000000) ].


(** A settings file whose colour is a list. *)
Definition list_colour_file : gmap string pyval :=
  list_to_map
    [ ("font", PFloat 14000000);
      ("color", PList [PInt 255; PInt 128; PInt 0]);
      ("top", PBool false);
      ("offset", PFloat 2000000);
      ("pos", PList [PInt 30; PInt 40]) ].


(** A settings file whose position is written with floats. *)
Definition float_pos_file : gmap string pyval :=
  list_to_map
    [ ("font", PFloat 14000000);
      ("pos", PList [PFloat 12900000; PFloat (-3700000)]) ].

(** The server answers at once with a date in the [-0000] zone. *)
Definition naive_date_env : Env :=
  Mock.env (Responds {[ "Date" := "Thu, 01 Jan 1970 00:00:10 -0000" ]}) 0 0 Written.

(** A clock whose manual offset is the integer 5. *)
Definition int_offset_clock : DigitalClock Mock.rgb :=
  set_manual_offset (PInt 5) Mock.sample.

End MockGui.

(** ** Properties of the time synchronisation *)

Section Sync.

Context {QColor : Type} {lib : Lib QColor}.
Variable env : Env.

#[local] Abbreviation State := (State QColor).

Ltac run :=
  unfold ntp_loop_body, fetch_ntp, requests_head, datetime_now, time_sleep,
    datetime_sub, log_offset, try_except, bind, ret, raise, pass, of_option,
    get_world, put_world, get_self, modify_self, dispatch; simpl.

Lemma fetch_ntp_failure (st : State) (r : Reason) :
  sync_result (outcome (next_exchange env (world st))) = Failure r ->
  fetch_ntp env st =
    (Return (WithTz (Aware (first_reading env (world st)) UTC)),
     {| self := self st;
        world := {| clock := first_reading env (world st);
                    reads := S (reads (world st));
                    sent := S (sent (world st));
                    writes := writes (world st);
                    disk := disk (world st);
                    events := events (world st)
                      ++ [Request (clock (world st)) (request_done env (world st))];
                    offset_log := offset_log (world st) |} |}).
Proof.
  unfold sync_result, first_reading, request_done, next_exchange.
  destruct st as [me w]; simpl. intros H. run.
  destruct (outcome (exchange env (sent w))) as [headers|e]; simpl.
  - destruct (headers !! "Date") as [date|] eqn:Hd; simpl.
    + destruct (parsedate_to_datetime date); [discriminate|]. reflexivity.
    + reflexivity.
  - destruct e; reflexivity.
Qed.

Lemma fetch_ntp_success (st : State) (d : datetime) :
  sync_result (outcome (next_exchange env (world st))) = Success d ->
  fetch_ntp env st =
    (Return d,
     {| self := self st;
        world := {| clock := request_done env (world st);
                    reads := reads (world st);
                    sent := S (sent (world st));
                    writes := writes (world st);
                    disk := disk (world st);
                    events := events (world st)
                      ++ [Request (clock (world st)) (request_done env (world st))];
                    offset_log := offset_log (world st) |} |}).
Proof.
  unfold sync_result, request_done, next_exchange.
  destruct st as [me w]; simpl. intros H. run.
  destruct (outcome (exchange env (sent w))) as [headers|e]; simpl; [|discriminate].
  destruct (headers !! "Date") as [date|] eqn:Hd; simpl; [|discriminate].
  destruct (parsedate_to_datetime date); [|discriminate].
  injection H as ->. reflexivity.
Qed.

Lemma ntp_loop_body_failure (st : State) (r : Reason) :
  sync_result (outcome (next_exchange env (world st))) = Failure r ->
  ntp_loop_body env st =
    (Return tt,
     {| self := set_offset (first_reading env (world st) - second_reading env (world st))
                           (self st);
        world := after_attempt env (world st) 2
                   [first_reading env (world st) - second_reading env (world st)]
                   (second_reading env (world st)) |}).
Proof.
  intros H. unfold ntp_loop_body, try_except, bind at 1 2.
  rewrite (fetch_ntp_failure st r H).
  destruct st as [me w]. unfold after_attempt, second_reading. run.
  rewrite Nat.add_comm. reflexivity.
Qed.

Lemma ntp_loop_body_success (st : State) (a : aware) :
  sync_result (outcome (next_exchange env (world st))) = Success (WithTz a) ->
  ntp_loop_body env st =
    (Return tt,
     {| self := set_offset (instant a - first_reading env (world st)) (self st);
        world := after_attempt env (world st) 1
                   [instant a - first_reading env (world st)]
                   (first_reading env (world st)) |}).
Proof.
  intros H. unfold ntp_loop_body, try_except, bind at 1 2.
  rewrite (fetch_ntp_success st _ H).
  destruct st as [me w]. unfold after_attempt, first_reading. run.
  rewrite Nat.add_comm. reflexivity.
Qed.

Lemma ntp_loop_body_naive (st : State) (wall : Z) :
  sync_result (outcome (next_exchange env (world st))) = Success (Naive wall) ->
  ntp_loop_body env st =
    (Return tt,
     {| self := self st;
        world := after_attempt env (world st) 1 [] (first_reading env (world st)) |}).
Proof.
  intros H. unfold ntp_loop_body, try_except, bind at 1 2.
  rewrite (fetch_ntp_success st _ H).
  destruct st as [me w]. unfold after_attempt, first_reading. run.
  rewrite Nat.add_comm, app_nil_r. reflexivity.
Qed.

Lemma readings_ordered (w : World) :
  clock w <= request_done env w /\
  request_done env w <= first_reading env w /\
  first_reading env w <= second_reading env w.
Proof.
  unfold second_reading, first_reading, request_done. lia.
Qed.

(** Whatever the exchange, the body of the loop returns, having issued one
    request and paused once, after the request had completed. *)
Lemma ntp_loop_body_returns (st : State) :
  exists me k logged t,
    ntp_loop_body env st =
      (Return tt, {| self := me; world := after_attempt env (world st) k logged t |}) /\
    request_done env (world st) <= t.
Proof.
  destruct (readings_ordered (world st)) as (_ & H1 & H2).
  destruct (sync_result (outcome (next_exchange env (world st)))) as [[a|wall]|r] eqn:H.
  - eexists _, _, _, _. split; [apply (ntp_loop_body_success st a H)|exact H1].
  - eexists _, _, _, _. split; [apply (ntp_loop_body_naive st wall H)|exact H1].
  - eexists _, _, _, _. split; [apply (ntp_loop_body_failure st r H)|lia].
Qed.

(** Any number of iterations: the loop is still running, and its trace is
    a schedule of that many attempts. *)
Lemma ntp_loop_trace (fuel : nat) (st : State) :
  exists st' evs,
    _ntp_loop env fuel st = (Return tt, st') /\
    events (world st') = events (world st) ++ evs /\
    schedule (clock (world st)) evs (clock (world st')) /\
    length evs = (2 * fuel)%nat /\
    sent (world st') = (sent (world st) + fuel)%nat /\
    disk (world st') = disk (world st).
Proof.
  revert st. induction fuel as [|n IH]; intros st.
  - exists st, []. simpl. rewrite app_nil_r, Nat.add_0_r.
    repeat split; constructor.
  - destruct (ntp_loop_body_returns st) as (me & k & logged & t & Hb & Ht).
    destruct (readings_ordered (world st)) as (Hc & _).
    destruct (IH {| self := me; world := after_attempt env (world st) k logged t |})
      as (st' & evs & Hl & He & Hs & Hn & Hsent & Hd).
    exists st', (Request (clock (world st)) (request_done env (world st))
                 :: Sleep t 600 :: evs).
    simpl in *. unfold bind. rewrite Hb, Hl.
    repeat split.
    + rewrite He, <- !app_assoc. reflexivity.
    + constructor; [exact Hc|exact Ht|exact Hs].
    + simpl. rewrite Hn. lia.
    + rewrite Hsent. lia.
    + exact Hd.
Qed.

(** C1 (amended).  When a synchronisation attempt fails (the request raises,
    the response has no Date header, or the header does not parse), the
    network offset is overwritten with the fallback clock reading minus the
    clock reading the loop takes next, that is minus the time that passed
    between the two readings (zero or negative), whatever its value was; the
    attempt does not raise, and the loop goes on for any number of further
    iterations. *)
Theorem failed_sync_overwrites_offset (st : State) (r : Reason) :
  sync_result (outcome (next_exchange env (world st))) = Failure r ->
  exists st',
    ntp_loop_body env st = (Return tt, st') /\
    offset (self st') = first_reading env (world st) - second_reading env (world st) /\
    offset (self st') = - Z.of_N (jitter env (S (reads (world st)))) /\
    offset (self st') <= 0 /\
    forall fuel, fst (_ntp_loop env (S fuel) st) = Return tt.
Proof.
  intros H. eexists. split; [apply (ntp_loop_body_failure st r H)|].
  split; [reflexivity|].
  split; [simpl; unfold second_reading; lia|].
  split; [simpl; unfold second_reading; lia|].
  intros fuel. destruct (ntp_loop_trace (S fuel) st) as (st' & evs & Hl & _).
  rewrite Hl. reflexivity.
Qed.

(** C2 (amended).  When a synchronisation attempt succeeds with a
    timezone-aware server instant, the network offset is set to that instant
    minus the local UTC instant read after [fetch_ntp] has returned, which is
    the instant before the request plus the duration of the request and the
    time until the clock is read. *)
Theorem successful_sync_sets_offset (st : State) (a : aware) :
  sync_result (outcome (next_exchange env (world st))) = Success (WithTz a) ->
  exists st',
    ntp_loop_body env st = (Return tt, st') /\
    offset (self st') = instant a - first_reading env (world st) /\
    first_reading env (world st) =
      local_instant_before (world st) + Z.of_N (took (next_exchange env (world st)))
      + Z.of_N (jitter env (reads (world st))).
Proof.
  intros H. eexists. split; [apply (ntp_loop_body_success st a H)|].
  split; reflexivity.
Qed.

(** C6.  The sync loop makes one attempt per iteration and pauses 600 seconds
    after each, whatever the outcome: for any number of iterations the loop
    has not ended, it has issued exactly that many requests, and its trace
    is a request, a 600-second pause, a request issued at the end of that
    pause, and so on, each pause starting after its request has
    completed. *)
Theorem ntp_loop_one_attempt_per_pause (fuel : nat) (st : State) :
  exists st' evs,
    _ntp_loop env fuel st = (Return tt, st') /\
    events (world st') = events (world st) ++ evs /\
    schedule (clock (world st)) evs (clock (world st')) /\
    length evs = (2 * fuel)%nat /\
    sent (world st') = (sent (world st) + fuel)%nat.
Proof.
  destruct (ntp_loop_trace fuel st) as (st' & evs & H1 & H2 & H3 & H4 & H5 & _).
  exists st', evs. auto.
Qed.

(** With a clock that only moves during the pauses (requests and clock reads
    take no time), [fuel] iterations last [fuel] times 600 seconds. *)
Lemma ntp_loop_mock_clock (fuel : nat) (st : State) :
  (forall k, took (exchange env k) = 0%N) ->
  (forall k, jitter env k = 0%N) ->
  clock (world (snd (_ntp_loop env fuel st)))
    = clock (world st) + Z.of_nat fuel * (600 * million).
Proof.
  intros Ht Hj. revert st. induction fuel as [|n IH]; intros st.
  - simpl. lia.
  - assert (Hb : exists me k logged,
      ntp_loop_body env st =
        (Return tt, {| self := me;
                       world := after_attempt env (world st) k logged (clock (world st)) |})).
    { assert (Hf : first_reading env (world st) = clock (world st)).
      { unfold first_reading, request_done, next_exchange. rewrite Ht, Hj. lia. }
      assert (Hs : second_reading env (world st) = clock (world st)).
      { unfold second_reading. rewrite Hf, Hj. lia. }
      destruct (sync_result (outcome (next_exchange env (world st)))) as [[a|wall]|r] eqn:H.
      - eexists _, _, _. rewrite (ntp_loop_body_success st a H), Hf. reflexivity.
      - eexists _, _, _. rewrite (ntp_loop_body_naive st wall H), Hf. reflexivity.
      - eexists _, _, _. rewrite (ntp_loop_body_failure st r H), Hs. reflexivity. }
    destruct Hb as (me & k & logged & Hb).
    change (_ntp_loop env (S n) st) with (bind (ntp_loop_body env) (fun _ => _ntp_loop env n) st).
    unfold bind. rewrite Hb, IH. simpl. lia.
Qed.

(** C10.  [fetch_ntp] always returns a datetime.  When the attempt fails it
    returns the local UTC clock reading taken at the fallback, an aware
    datetime like a parsed one, and the loop computes the offset from it as
    it does from a server instant: the returned instant minus the next clock
    reading. *)
Theorem fetch_ntp_falls_back_to_local_clock (st : State) (r : Reason) :
  sync_result (outcome (next_exchange env (world st))) = Failure r ->
  (forall st0 : State, exists d st1, fetch_ntp env st0 = (Return d, st1)) /\
  fst (fetch_ntp env st) = Return (WithTz (Aware (first_reading env (world st)) UTC)) /\
  fst (ntp_loop_body env st) = Return tt /\
  offset (self (snd (ntp_loop_body env st)))
    = first_reading env (world st) - second_reading env (world st).
Proof.
  intros H. split.
  - intros st0.
    destruct (sync_result (outcome (next_exchange env (world st0)))) as [d|r0] eqn:H0.
    + eexists _, _. apply (fetch_ntp_success st0 d H0).
    + eexists _, _. apply (fetch_ntp_failure st0 r0 H0).
  - rewrite (fetch_ntp_failure st r H), (ntp_loop_body_failure st r H).
    repeat split.
Qed.

End Sync.

(** ** Properties of the time source and of the settings store *)

Section Settings.

Context {QColor : Type} {lib : Lib QColor}.
Variable env : Env.

#[local] Abbreviation State := (State QColor).
#[local] Abbreviation DigitalClock := (DigitalClock QColor).

Ltac run_settings :=
  unfold _now, _save, _load, load_pos, write_text, read_text, path_exists,
    json_loads, json_dumps, dict_get, QColor_new, py_int, QPoint, float_add,
    datetime_now, try_except, bind, ret, raise, exits, outcome_of, pass,
    of_option, get_world, put_world, get_self, modify_self, dispatch; simpl.

(** A timedelta between two dates of the years 1 to 9999 is a timedelta. *)
Lemma in_days_between (a b : Z) :
  in_years a = true -> in_years (a + b) = true -> in_days b = true.
Proof.
  unfold in_years, in_days, datetime_min, datetime_max, day, million.
  intros Ha Hb.
  apply andb_prop in Ha as [Ha1 Ha2]. apply andb_prop in Hb as [Hb1 Hb2].
  apply andb_true_intro. split; apply Z.leb_le.
  - apply Z.div_le_lower_bound; lia.
  - apply Z.div_le_upper_bound; lia.
Qed.

(** [_now] when nothing fails: the clock is read once, and nothing else of
    the state changes. *)
Lemma now_returns (me : DigitalClock) (w : World) (man : Z) :
  let system_instant := clock w + Z.of_N (jitter env (reads w)) in
  as_float (manual_offset me) = Some man ->
  float_sum (offset me) man = offset me + man ->
  in_years system_instant = true ->
  in_years (system_instant + offset me + man) = true ->
  in_years (system_instant + offset me + man + hours 8) = true ->
  _now env {| self := me; world := w |}
    = (Return (Aware (system_instant + offset me + man) (hours 8)),
       {| self := me;
          world := {| clock := system_instant; reads := S (reads w); sent := sent w;
                      writes := writes w; disk := disk w; events := events w;
                      offset_log := offset_log w |} |}).
Proof.
  intros system_instant Hman Hsum Hsys Hadj Hloc.
  assert (Hd : in_days (offset me + man) = true).
  { apply (in_days_between system_instant); [exact Hsys|].
    rewrite Z.add_assoc. exact Hadj. }
  assert (E2 : datetime_add (Aware system_instant UTC) (offset me + man)
               = Return (Aware (system_instant + offset me + man) UTC)).
  { unfold datetime_add, wall_clock. cbn [instant utcoffset].
    replace (system_instant + (offset me + man) + UTC)
      with (system_instant + offset me + man) by (unfold UTC; lia).
    rewrite Hadj, Z.add_assoc. reflexivity. }
  assert (E3 : astimezone (Aware (system_instant + offset me + man) UTC) (hours 8)
               = Return (Aware (system_instant + offset me + man) (hours 8))).
  { unfold astimezone. cbn [instant utcoffset]. rewrite Hadj, Hloc. reflexivity. }
  unfold _now, float_add, datetime_now, bind, of_option, outcome_of,
    get_world, put_world, get_self.
  simpl. rewrite Hman. simpl. unfold ret. simpl. rewrite Hsum.
  unfold timedelta_seconds. rewrite Hd.
  fold system_instant. rewrite E2, E3. reflexivity.
Qed.

(** C3 (amended).  For every network offset, manual offset and system instant
    such that the float sum of the two offsets is exact to the microsecond
    and the system instant, the adjusted instant and the adjusted instant
    eight hours later are dates of the years 1 to 9999, [_now] returns the
    system instant plus the two offsets, in the UTC+8 zone; it does not
    raise, and it changes neither the clock object nor the settings file, the
    log, the request count or the trace. *)
Theorem now_adds_both_offsets (me : DigitalClock) (w : World) (net man : Z) :
  let st := {| self := set_manual_offset (PFloat man) (set_offset net me); world := w |} in
  let system_instant := clock w + Z.of_N (jitter env (reads w)) in
  let shown := Aware (system_instant + net + man) (hours 8) in
  float_sum net man = net + man ->
  in_years system_instant = true ->
  in_years (system_instant + net + man) = true ->
  in_years (wall_clock shown) = true ->
  exists w',
    _now env st = (Return shown, {| self := self st; world := w' |}) /\
    instant shown = system_instant + net + man /\
    wall_clock shown = system_instant + net + man + 8 * 3600 * million /\
    disk w' = disk w /\ events w' = events w /\
    sent w' = sent w /\ writes w' = writes w /\ offset_log w' = offset_log w.
Proof.
  intros st system_instant shown Hsum Hsys Hadj Hloc. eexists. split.
  - subst st shown.
    apply (now_returns (set_manual_offset (PFloat man) (set_offset net me)) w man);
      [reflexivity|exact Hsum|exact Hsys|exact Hadj|exact Hloc].
  - repeat split.
Qed.

(** Outside the numbers the addition fails: a manual offset that is not a
    number (a string in a hand-edited settings file) raises a TypeError. *)
Lemma now_needs_numeric_offset (me : DigitalClock) (w : World) (v : pyval) :
  as_float v = None ->
  fst (_now env {| self := set_manual_offset v me; world := w |}) = Raise TypeError.
Proof.
  intros H. run_settings. rewrite H. reflexivity.
Qed.

(** *** Computations that leave the world alone *)

Lemma keeps_world_ret {A} (a : A) : keeps_world (@ret QColor A a).
Proof. intros st. reflexivity. Qed.

Lemma keeps_world_raise {A} (e : exn) : keeps_world (@raise QColor A e).
Proof. intros st. reflexivity. Qed.

Lemma keeps_world_exits {A} (c : Z) : keeps_world (@exits QColor A c).
Proof. intros st. reflexivity. Qed.

Lemma keeps_world_get_self : keeps_world (@get_self QColor).
Proof. intros st. reflexivity. Qed.

Lemma keeps_world_get_world : keeps_world (@get_world QColor).
Proof. intros st. reflexivity. Qed.

Lemma keeps_world_modify_self f : keeps_world (@modify_self QColor f).
Proof. intros st. reflexivity. Qed.

Lemma keeps_world_of_option {A} (o : option A) e : keeps_world (@of_option QColor A o e).
Proof. destruct o; intros st; reflexivity. Qed.

Lemma keeps_world_bind {A B} (m : M QColor A) (k : A -> M QColor B) :
  keeps_world m -> (forall a, keeps_world (k a)) -> keeps_world (bind m k).
Proof.
  intros Hm Hk st. unfold bind. specialize (Hm st).
  destruct (m st) as [[a|e|c] st1]; simpl in *; [|exact Hm|exact Hm].
  rewrite (Hk a st1). exact Hm.
Qed.

Lemma keeps_world_dispatch {A} (hs : list (handler QColor A)) (e : exn) :
  Forall (fun h => keeps_world (snd h)) hs -> keeps_world (dispatch hs e).
Proof.
  induction 1 as [|[cls h] hs Hh _ IH]; simpl.
  - apply keeps_world_raise.
  - destruct (cls e); [exact Hh | exact IH].
Qed.

Lemma keeps_world_try_except {A} (body : M QColor A) (hs : list (handler QColor A)) :
  keeps_world body -> Forall (fun h => keeps_world (snd h)) hs ->
  keeps_world (try_except body hs).
Proof.
  intros Hb Hh st. unfold try_except. specialize (Hb st).
  destruct (body st) as [[a|e|c] st1]; simpl in *; [exact Hb| |exact Hb].
  rewrite (keeps_world_dispatch hs e Hh st1). exact Hb.
Qed.

Create HintDb frame.
#[local] Hint Resolve keeps_world_ret keeps_world_raise keeps_world_exits
  keeps_world_get_self keeps_world_get_world keeps_world_modify_self
  keeps_world_of_option : frame.

Ltac frame :=
  repeat first
    [ apply keeps_world_bind; [|intros ?]
    | apply keeps_world_try_except
    | match goal with |- Forall _ _ => constructor; simpl end
    | solve [unfold pass; auto with frame]
    | match goal with
      | |- keeps_world (match ?x with _ => _ end) => destruct x
      end ].

Lemma load_keeps_world : keeps_world (_load (QColor:=QColor)).
Proof.
  unfold _load, path_exists, read_text, json_loads, dict_get, QColor_new,
    load_pos, py_int, QPoint.
  frame.
Qed.

(** [_now] reads the clock and touches nothing else, whether it returns or
    raises. *)
Lemma now_keeps_rest (st : State) :
  self (snd (_now env st)) = self st /\
  disk (world (snd (_now env st))) = disk (world st) /\
  offset_log (world (snd (_now env st))) = offset_log (world st).
Proof.
  destruct st as [me w]. run_settings.
  destruct (as_float (manual_offset me)); simpl; [|repeat split].
  unfold timedelta_seconds, datetime_add, astimezone.
  repeat match goal with
         | |- context [if ?b then _ else _] => destruct b; simpl
         end; repeat split.
Qed.

Lemma now_keeps_disk (st : State) : disk (world (snd (_now env st))) = disk (world st).
Proof. apply now_keeps_rest. Qed.

Lemma load_absent (me : DigitalClock) (w : World) :
  _load {| self := me; world := with_disk Absent w |}
    = (Return tt, {| self := me; world := with_disk Absent w |}).
Proof. reflexivity. Qed.

(** With a file that is not JSON or cannot be read, [_load] returns and the
    clock object is as it was. *)
Lemma load_without_json (me : DigitalClock) (w : World) (raw : string) (e : exn) :
  _load {| self := me; world := with_disk (Content (Garbage raw)) w |}
    = (Return tt, {| self := me; world := with_disk (Content (Garbage raw)) w |}) /\
  _load {| self := me; world := with_disk (Unreadable e) w |}
    = (Return tt, {| self := me; world := with_disk (Unreadable e) w |}).
Proof.
  split; [reflexivity|]. destruct e; reflexivity.
Qed.

(** C7.  [_load] does not always return.  From a settings file that holds a
    JSON object whose [pos] is a pair of integers of which one does not fit a
    C int, [_load] assigns the six settings and then the process ends with
    status 1 inside [QPoint], past both [except] clauses; and when
    [CONFIG_FILE.exists()] raises, the exception leaves [_load], since the
    call stands before the [try]. *)
Theorem load_exits_on_position_overflow (me : DigitalClock) (w : World)
    (m : gmap string pyval) (c : string) (x y : Z) (e : exn) :
  default (PStr (QColor_name (color me))) (m !! "color") = PStr c ->
  m !! "pos" = Some (PList [PInt x; PInt y]) ->
  fits_int x && fits_int y = false ->
  _load {| self := me; world := with_disk (Content (JsonText (PDict m))) w |}
    = (Exit 1, {| self := loaded_fields me m c;
                  world := with_disk (Content (JsonText (PDict m))) w |}) /\
  _load {| self := me; world := with_disk (Inaccessible e) w |}
    = (Raise e, {| self := me; world := with_disk (Inaccessible e) w |}).
Proof.
  intros Hc Hp Hf. split; [|reflexivity].
  run_settings. rewrite Hc, Hp. simpl. rewrite Hf. reflexivity.
Qed.

(** C8.  When the write of a save fails, [_save] still returns: the
    exception is swallowed, the clock object is exactly as before, and only
    the file is affected. *)
Theorem save_failure_is_swallowed (me : DigitalClock) (w : World) (e : exn) (residue : FileState) :
  write_outcome env (writes w) = WriteFails e residue ->
  _save env {| self := me; world := w |}
    = (Return tt, {| self := me; world := after_write residue w |}).
Proof.
  intros H. run_settings. rewrite H. reflexivity.
Qed.

Lemma save_written (me : DigitalClock) (w : World) :
  write_outcome env (writes w) = Written ->
  _save env {| self := me; world := w |}
    = (Return tt,
       {| self := me;
          world := after_write (Content (JsonText (PDict (save_data me)))) w |}).
Proof.
  intros H. run_settings. rewrite H. reflexivity.
Qed.

Lemma save_data_dom (me : DigitalClock) :
  dom (save_data me) = list_to_set settings_keys.
Proof.
  unfold save_data. rewrite dom_list_to_map_L. reflexivity.
Qed.

(** What an attempt adds to the log: nothing when it assigns nothing, and
    otherwise the offset it has just assigned. *)
Lemma ntp_loop_body_log (st : State) :
  let st' := snd (ntp_loop_body env st) in
  (self st' = self st /\ offset_log (world st') = offset_log (world st)) \/
  offset_log (world st') = offset_log (world st) ++ [offset (self st')].
Proof.
  destruct (sync_result (outcome (next_exchange env (world st)))) as [[a|wall]|r] eqn:H.
  - rewrite (ntp_loop_body_success env st a H). right. reflexivity.
  - rewrite (ntp_loop_body_naive env st wall H). left.
    split; [reflexivity|]. simpl. apply app_nil_r.
  - rewrite (ntp_loop_body_failure env st r H). right. reflexivity.
Qed.

(** C9 (amended).  A save that writes the settings file writes a JSON object
    with exactly the keys font, opacity, spacing, color, top, offset and pos,
    in which [offset] is the manual offset; what is written does not depend
    on the network offset; neither [_load], [_now] nor the sync loop changes
    the settings file, and neither [_save], [_load] nor [_now] writes to the
    log of offsets: the one write of the network offset to disk is the line
    of the sync loop in the log file, where an attempt either assigns
    nothing and logs nothing or appends the offset it has assigned. *)
Theorem save_writes_settings_only (me : DigitalClock) (w : World) :
  write_outcome env (writes w) = Written ->
  exists data,
    _save env {| self := me; world := w |}
      = (Return tt,
         {| self := me; world := after_write (Content (JsonText (PDict data))) w |}) /\
    dom data = list_to_set settings_keys /\
    data !! "offset" = Some (manual_offset me) /\
    (forall net,
       disk (world (snd (_save env {| self := set_offset net me; world := w |})))
         = Content (JsonText (PDict data))) /\
    (forall st : State, disk (world (snd (_load st))) = disk (world st)) /\
    (forall st : State, disk (world (snd (_now env st))) = disk (world st)) /\
    (forall fuel (st : State), disk (world (snd (_ntp_loop env fuel st))) = disk (world st)) /\
    (forall st : State, offset_log (world (snd (_load st))) = offset_log (world st)) /\
    (forall st : State, offset_log (world (snd (_now env st))) = offset_log (world st)) /\
    (forall st : State,
       let st' := snd (ntp_loop_body env st) in
       (self st' = self st /\ offset_log (world st') = offset_log (world st)) \/
       offset_log (world st') = offset_log (world st) ++ [offset (self st')]).
Proof.
  intros H. exists (save_data me).
  split; [apply (save_written me w H)|].
  split; [apply save_data_dom|].
  split; [reflexivity|].
  split; [intros net; rewrite (save_written _ w H); reflexivity|].
  split; [intros st; rewrite load_keeps_world; reflexivity|].
  split; [apply now_keeps_disk|].
  split.
  { intros fuel st.
    destruct (ntp_loop_trace env fuel st) as (st' & evs & Hl & _ & _ & _ & _ & Hd).
    rewrite Hl. exact Hd. }
  split; [intros st; rewrite load_keeps_world; reflexivity|].
  split; [intros st; apply now_keeps_rest|].
  apply ntp_loop_body_log.
Qed.

(** *** Loading a JSON object *)


Lemma load_dict_pos (me : DigitalClock) (w : World) (d : gmap string pyval) (c : string) (x y : Z) :
  default (PStr (QColor_name (color me))) (d !! "color") = PStr c ->
  d !! "pos" = Some (PList [PInt x; PInt y]) ->
  fits_int x && fits_int y = true ->
  _load {| self := me; world := with_disk (Content (JsonText (PDict d))) w |}
    = (Return tt,
       {| self := set_pos (x, y) (loaded_fields me d c);
          world := with_disk (Content (JsonText (PDict d))) w |}).
Proof.
  intros Hc Hp Hf. run_settings. rewrite Hc, Hp. simpl. rewrite Hf. reflexivity.
Qed.



(** C5.  Saving a settings record and loading the file again, into any
    clock object, gives back the font size, opacity, spacing, colour,
    topmost flag, manual offset and window position that were saved (the
    network offset is not a setting and stays that of the loading object);
    and loading with no file returns without raising and leaves the
    defaults.  The colour is one that Qt builds back from its name, the
    position one of the window system. *)
Theorem save_then_load_round_trip (s s0 : DigitalClock) (w w0 : World) (p : Z * Z) :
  write_outcome env (writes w) = Written ->
  QColor_named (QColor_name (color s)) = color s ->
  fits_int (fst (pos s)) && fits_int (snd (pos s)) = true ->
  exists w',
    _save env {| self := s; world := w |} = (Return tt, {| self := s; world := w' |}) /\
    _load {| self := s0; world := w' |}
      = (Return tt, {| self := set_offset (offset s0) s; world := w' |}) /\
    _load {| self := defaults p; world := with_disk Absent w0 |}
      = (Return tt, {| self := defaults p; world := with_disk Absent w0 |}).
Proof.
  intros Hw Hc Hf.
  exists (after_write (Content (JsonText (PDict (save_data s)))) w).
  split; [apply (save_written s w Hw)|]. split; [|apply load_absent].
  change (after_write (Content (JsonText (PDict (save_data s)))) w)
    with (with_disk (Content (JsonText (PDict (save_data s))))
            (after_write (Content (JsonText (PDict (save_data s)))) w)).
  rewrite (load_dict_pos s0 _ (save_data s) (QColor_name (color s))
             (fst (pos s)) (snd (pos s))); [|reflexivity|reflexivity|exact Hf].
  f_equal. f_equal.
  unfold loaded_fields, set_pos, set_offset, save_data. simpl.
  rewrite Hc. destruct s as [? ? ? ? ? ? ? []]. reflexivity.
Qed.

End Settings.

(** ** The theorems at sample inputs *)

(** A timed-out attempt of a clock that was 5 seconds off: the offset is
    back to zero. *)
Lemma failed_sync_overwrites_offset_witness :
  exists st',
    ntp_loop_body Mock.timeout_env Mock.synced = (Return tt, st') /\
    offset (self st') = 0.
Proof.
  destruct (failed_sync_overwrites_offset Mock.timeout_env Mock.synced
              (RequestFailed Timeout) eq_refl) as (st' & Hb & _ & Ho & _ & _).
  exists st'. split; [exact Hb|exact Ho].
Defined.

(** C1 as stated fails: after a timeout, after a response without Date
    header and after a refused connection, the offset of [Mock.synced] is no
    longer the 5 seconds it was. *)
Lemma failed_sync_changes_offset :
  sync_result (outcome (next_exchange Mock.timeout_env (world Mock.synced)))
    = Failure (RequestFailed Timeout) /\
  sync_result (outcome (next_exchange Mock.no_header_env (world Mock.synced)))
    = Failure MissingHeader /\
  sync_result (outcome (next_exchange Mock.refused_env (world Mock.synced)))
    = Failure (RequestFailed ConnectionError) /\
  offset (self Mock.synced) = 5000000 /\
  offset (self (snd (ntp_loop_body Mock.timeout_env Mock.synced))) = 0 /\
  offset (self (snd (ntp_loop_body Mock.no_header_env Mock.synced))) = 0 /\
  offset (self (snd (ntp_loop_body Mock.refused_env Mock.synced))) = 0 /\
  offset (self (snd (ntp_loop_body Mock.timeout_env Mock.synced)))
    <> offset (self Mock.synced).
Proof. vm_compute. repeat split; discriminate. Qed.

(** The server says 10 s, the request took 2 s from instant 0: the offset
    is 8 s. *)
Lemma successful_sync_sets_offset_witness :
  exists st',
    ntp_loop_body Mock.slow_server_env (Mock.state0 Absent) = (Return tt, st') /\
    offset (self st') = 8000000.
Proof.
  assert (H : sync_result (outcome (next_exchange Mock.slow_server_env
                                       (world (Mock.state0 Absent))))
              = Success (WithTz (Aware 10000000 0))) by (vm_compute; reflexivity).
  destruct (successful_sync_sets_offset Mock.slow_server_env (Mock.state0 Absent)
              (Aware 10000000 0) H) as (st' & Hb & Ho & _).
  exists st'. split; [exact Hb|exact Ho].
Defined.

(** C2 as stated fails: the server instant is 10 s and the local instant
    before the request is 0, yet the offset is not 10 s. *)
Lemma offset_is_not_relative_to_instant_before :
  sync_result (outcome (next_exchange Mock.slow_server_env (world (Mock.state0 Absent))))
    = Success (WithTz (Aware 10000000 0)) /\
  local_instant_before (world (Mock.state0 Absent)) = 0 /\
  offset (self (snd (ntp_loop_body Mock.slow_server_env (Mock.state0 Absent))))
    <> 10000000 - local_instant_before (world (Mock.state0 Absent)).
Proof. vm_compute. repeat split; discriminate. Qed.

Lemma fetch_ntp_falls_back_witness :
  fst (fetch_ntp Mock.refused_env Mock.synced) = Return (WithTz (Aware 1000 UTC)) /\
  offset (self (snd (ntp_loop_body Mock.refused_env Mock.synced))) = 0.
Proof.
  destruct (fetch_ntp_falls_back_to_local_clock Mock.refused_env Mock.synced
              (RequestFailed ConnectionError) eq_refl) as (_ & Hf & _ & Ho).
  split; [exact Hf|exact Ho].
Defined.

(** The sample clock, 5 s ahead by the network and 1.5 s by hand, at
    instant 0: the time shown is 6.5 s after the epoch, in UTC+8. *)
Lemma now_adds_both_offsets_witness :
  exists w',
    _now Mock.timeout_env
      {| self := set_manual_offset (PFloat 1500000) (set_offset 5000000 Mock.sample);
         world := Mock.world0 Absent |}
      = (Return (Aware 6500000 (hours 8)),
         {| self := set_manual_offset (PFloat 1500000) (set_offset 5000000 Mock.sample);
            world := w' |}).
Proof.
  destruct (now_adds_both_offsets (lib := Mock.lib) Mock.timeout_env Mock.sample
              (Mock.world0 Absent) 5000000 1500000 eq_refl eq_refl eq_refl eq_refl)
    as (w' & H & _).
  exists w'. exact H.
Defined.

(** C3 as stated fails: with a manual offset of 10^12 seconds (which the
    settings file can hold), no network offset and the system instant 0, the
    float sum is exact and a timedelta, but the adjusted instant is past the
    year 9999: [_now] raises an OverflowError and shows no time. *)
Lemma now_overflows_for_a_far_offset :
  manual_offset (self Mock.far_offset) = PFloat (1000000000000 * million) /\
  offset (self Mock.far_offset) = 0 /\
  clock (world Mock.far_offset) = 0 /\
  float_sum 0 (1000000000000 * million) = 0 + 1000000000000 * million /\
  in_days (1000000000000 * million) = true /\
  fst (_now Mock.timeout_env Mock.far_offset) = Raise OverflowError /\
  forall shown, fst (_now Mock.timeout_env Mock.far_offset) <> Return shown.
Proof.
  assert (H : fst (_now Mock.timeout_env Mock.far_offset) = Raise OverflowError)
    by (vm_compute; reflexivity).
  repeat split; try (vm_compute; reflexivity).
  intros shown. rewrite H. discriminate.
Qed.


(** The settings file [{"pos": [3000000000, 5]}]: the process ends inside
    [_load]. *)
Lemma load_exits_witness :
  fst (_load {| self := defaults (0, 0);
                world := with_disk (Content (JsonText (PDict Mock.far_pos_file)))
                           (Mock.world0 Absent) |}) = Exit 1.
Proof.
  assert (Hc : default (PStr (Mock.name (color (defaults (0, 0)))))
                 (Mock.far_pos_file !! "color") = PStr "#ffffff")
    by (vm_compute; reflexivity).
  assert (Hp : Mock.far_pos_file !! "pos" = Some (PList [PInt 3000000000; PInt 5]))
    by (vm_compute; reflexivity).
  destruct (load_exits_on_position_overflow (lib := Mock.lib) (defaults (0, 0))
              (Mock.world0 Absent) Mock.far_pos_file "#ffffff" 3000000000 5 OSError
              Hc Hp eq_refl) as [H _].
  rewrite H. reflexivity.
Defined.

(** C9 as stated fails: after one attempt in which the server was 8 seconds
    ahead, the log file holds the network offset. *)
Lemma sync_writes_offset_to_log :
  let st' := snd (ntp_loop_body Mock.slow_server_env (Mock.state0 Absent)) in
  offset_log (world (Mock.state0 Absent)) = [] /\
  offset (self st') = 8000000 /\
  offset_log (world st') = [8000000] /\
  offset_log (world st') <> offset_log (world (Mock.state0 Absent)).
Proof.
  vm_compute. repeat split; discriminate.
Qed.

Lemma save_failure_witness :
  _save Mock.disk_full_env {| self := Mock.sample; world := Mock.world0 Absent |}
    = (Return tt,
       {| self := Mock.sample;
          world := after_write (Content (Garbage "")) (Mock.world0 Absent) |}).
Proof.
  apply (save_failure_is_swallowed Mock.disk_full_env Mock.sample (Mock.world0 Absent)
           OSError (Content (Garbage ""))).
  reflexivity.
Defined.

Lemma save_writes_settings_witness :
  exists data,
    disk (world (snd (_save Mock.timeout_env
                        {| self := Mock.sample; world := Mock.world0 Absent |})))
      = Content (JsonText (PDict data)) /\
    data !! "offset" = Some (PFloat 1500000).
Proof.
  destruct (save_writes_settings_only Mock.timeout_env Mock.sample (Mock.world0 Absent)
              eq_refl) as (data & Hs & _ & Ho & _).
  exists data. rewrite Hs. split; [reflexivity|exact Ho].
Defined.


Lemma save_then_load_witness :
  exists w',
    _save Mock.timeout_env {| self := Mock.sample; world := Mock.world0 Absent |}
      = (Return tt, {| self := Mock.sample; world := w' |}) /\
    _load {| self := defaults (0, 0); world := w' |}
      = (Return tt, {| self := set_offset 0 Mock.sample; world := w' |}).
Proof.
  assert (Hc : Mock.named (Mock.name (color Mock.sample)) = color Mock.sample)
    by reflexivity.
  destruct (save_then_load_round_trip (lib := Mock.lib) Mock.timeout_env Mock.sample (defaults (0, 0))
              (Mock.world0 Absent) (Mock.world0 Absent) (0, 0) eq_refl Hc eq_refl)
    as (w' & Hs & Hl & _).
  exists w'. split; [exact Hs|exact Hl].
Defined.

(** ** More about the sync loop *)

Section SyncFrame.

Context {QColor : Type} {lib : Lib QColor}.
Variable env : Env.

#[local] Abbreviation State := (State QColor).

Lemma set_offset_twice (a b : Z) (me : DigitalClock QColor) :
  set_offset a (set_offset b me) = set_offset a me.
Proof. reflexivity. Qed.

Lemma set_offset_same (me : DigitalClock QColor) : set_offset (offset me) me = me.
Proof. destruct me; reflexivity. Qed.

Lemma ntp_loop_body_frame (st : State) :
  exists o k logged t,
    ntp_loop_body env st
      = (Return tt, {| self := set_offset o (self st);
                       world := after_attempt env (world st) k logged t |}).
Proof.
  destruct (sync_result (outcome (next_exchange env (world st)))) as [[a|wall]|r] eqn:H.
  - eexists _, _, _, _. apply (ntp_loop_body_success env st a H).
  - exists (offset (self st)). eexists _, _, _.
    rewrite set_offset_same. apply (ntp_loop_body_naive env st wall H).
  - eexists _, _, _, _. apply (ntp_loop_body_failure env st r H).
Qed.

(** X1.  The sync loop assigns [offset] and nothing else: after any number of
    iterations every setting of the clock object is what it was, and no
    write to the settings file has been attempted. *)
Theorem ntp_loop_assigns_offset_only (fuel : nat) (st : State) :
  exists o,
    self (snd (_ntp_loop env fuel st)) = set_offset o (self st) /\
    writes (world (snd (_ntp_loop env fuel st))) = writes (world st).
Proof.
  revert st. induction fuel as [|n IH]; intros st.
  - exists (offset (self st)). simpl. rewrite set_offset_same. split; reflexivity.
  - destruct (ntp_loop_body_frame st) as (o & k & logged & t & Hb).
    destruct (IH {| self := set_offset o (self st);
                    world := after_attempt env (world st) k logged t |}) as (o' & Hs & Hw).
    exists o'.
    change (_ntp_loop env (S n) st)
      with (bind (ntp_loop_body env) (fun _ => _ntp_loop env n) st).
    unfold bind. rewrite Hb, Hs, Hw. split; reflexivity.
Qed.

(** X2.  A Date header that parses to a naive datetime (the [-0000] zone) cannot
    be subtracted from the aware local time: the TypeError is caught by the
    loop, the offset keeps its value, and the pause follows as usual. *)
Theorem naive_server_date_keeps_offset (st : State) (wall : Z) :
  sync_result (outcome (next_exchange env (world st))) = Success (Naive wall) ->
  exists w',
    ntp_loop_body env st = (Return tt, {| self := self st; world := w' |}) /\
    sent w' = S (sent (world st)) /\
    clock w' = first_reading env (world st) + 600 * million.
Proof.
  intros H. eexists. split; [apply (ntp_loop_body_naive env st wall H)|].
  split; reflexivity.
Qed.

End SyncFrame.

(** ** More about loading the settings *)

Section LoadEdges.

Context {QColor : Type} {lib : Lib QColor}.
Variable env : Env.

#[local] Abbreviation State := (State QColor).
#[local] Abbreviation DigitalClock := (DigitalClock QColor).

Ltac run_load :=
  unfold _now, _load, load_pos, read_text, path_exists,
    json_loads, dict_get, QColor_new, py_int, QPoint, float_add,
    datetime_now, try_except, bind, ret, raise, exits, outcome_of, pass,
    of_option, get_world, put_world, get_self, modify_self, dispatch; simpl.

(** X3.  A settings file that holds JSON other than an object (a list, a number,
    a text, null) has no [get]: the AttributeError is caught and nothing is
    assigned. *)
Theorem load_ignores_json_that_is_no_object (me : DigitalClock) (w : World) (v : pyval) :
  (forall d, v <> PDict d) ->
  _load {| self := me; world := with_disk (Content (JsonText v)) w |}
    = (Return tt, {| self := me; world := with_disk (Content (JsonText v)) w |}).
Proof.
  intros H. run_load. destruct v; try reflexivity. destruct (H d eq_refl).
Qed.

(** X4.  Loading is not all or nothing: when the colour of the file is a value
    Qt rejects, the TypeError is caught after font size, opacity and spacing
    have been assigned, and colour, topmost flag, manual offset and position
    keep their old values even though the file holds them. *)
Theorem load_stops_at_rejected_colour (me : DigitalClock) (w : World)
    (m : gmap string pyval) (v : pyval) :
  m !! "color" = Some v ->
  (forall s, v <> PStr s) ->
  QColor_other v = None ->
  _load {| self := me; world := with_disk (Content (JsonText (PDict m))) w |}
    = (Return tt,
       {| self := set_spacing (default (spacing me) (m !! "spacing"))
                    (set_opacity (default (opacity me) (m !! "opacity"))
                       (set_time_pt (default (time_pt me) (m !! "font")) me));
          world := with_disk (Content (JsonText (PDict m))) w |}).
Proof.
  intros Hc Hs Ho. run_load. rewrite Hc. simpl.
  destruct v; try (rewrite Ho; reflexivity). destruct (Hs s eq_refl).
Qed.

Lemma load_dict_any_pos (me : DigitalClock) (w : World)
    (m : gmap string pyval) (c : string) :
  default (PStr (QColor_name (color me))) (m !! "color") = PStr c ->
  pos_fits m = true ->
  exists xy,
    _load {| self := me; world := with_disk (Content (JsonText (PDict m))) w |}
      = (Return tt,
         {| self := set_pos xy (loaded_fields me m c);
            world := with_disk (Content (JsonText (PDict m))) w |}).
Proof.
  intros Hc Hfit. unfold pos_fits in Hfit. revert Hfit.
  run_load. rewrite Hc. simpl.
  destruct (m !! "pos") as [v|]; simpl; [|intros _; exists (pos me); reflexivity].
  destruct (truthy v); [|intros _; exists (pos me); reflexivity].
  destruct v as [| | | | |l|]; try (intros _; exists (pos me); reflexivity).
  destruct l as [|a [|b [|]]]; try (intros _; exists (pos me); reflexivity).
  destruct a as [|[]| | |sa| |]; simpl; try (intros _; exists (pos me); reflexivity);
    try (destruct (int_of_str sa); simpl; [|intros _; exists (pos me); reflexivity]);
    (destruct b as [|[]| | |sb| |]; simpl; try (intros _; exists (pos me); reflexivity);
     try (destruct (int_of_str sb); simpl; [|intros _; exists (pos me); reflexivity]);
     intros Hfit; try rewrite Hfit; simpl;
     first [ exists (pos me); reflexivity | eexists; reflexivity ]).
Qed.



(** X7.  Coordinates written as floats are truncated toward zero by [int()]
    before the window is moved. *)
Theorem load_truncates_float_position (me : DigitalClock) (w : World)
    (m : gmap string pyval) (c : string) (fx fy : Z) :
  default (PStr (QColor_name (color me))) (m !! "color") = PStr c ->
  m !! "pos" = Some (PList [PFloat fx; PFloat fy]) ->
  fits_int (fx ÷ million) && fits_int (fy ÷ million) = true ->
  _load {| self := me; world := with_disk (Content (JsonText (PDict m))) w |}
    = (Return tt,
       {| self := set_pos (fx ÷ million, fy ÷ million) (loaded_fields me m c);
          world := with_disk (Content (JsonText (PDict m))) w |}).
Proof.
  intros Hc Hp Hf. run_load. rewrite Hc, Hp. simpl. rewrite Hf. reflexivity.
Qed.

(** X8.  A manual offset that is an integer (as the file's ["offset": 5]
    gives) or a boolean counts as seconds and is added like a float, as long
    as the float sum is exact to the microsecond and the system instant, the
    adjusted instant and the adjusted instant eight hours later are dates of
    the years 1 to 9999. *)
Theorem now_takes_any_number (me : DigitalClock) (w : World) (man : Z) :
  let system_instant := clock w + Z.of_N (jitter env (reads w)) in
  as_float (manual_offset me) = Some man ->
  float_sum (offset me) man = offset me + man ->
  in_years system_instant = true ->
  in_years (system_instant + offset me + man) = true ->
  in_years (system_instant + offset me + man + hours 8) = true ->
  exists w',
    _now env {| self := me; world := w |}
      = (Return (Aware (system_instant + offset me + man) (hours 8)),
         {| self := me; world := w' |}).
Proof.
  intros system_instant Hman Hsum Hsys Hadj Hloc. eexists.
  apply (now_returns env me w man Hman Hsum Hsys Hadj Hloc).
Qed.


End LoadEdges.

(** ** Properties of the window *)

Section WindowProps.

Context {QColor : Type} {lib : Lib QColor} {tk : Toolkit QColor}.
Variable env : Env.

#[local] Abbreviation State := (State QColor).
#[local] Abbreviation DigitalClock := (DigitalClock QColor).
#[local] Abbreviation Shell := (Shell QColor).
#[local] Abbreviation G := (G QColor).

Ltac run_gui :=
  unfold mousePressEvent, mouseMoveEvent, mouseReleaseEvent, closeEvent,
    _handle_tray_activated, _exit, show, showNormal, hide, call, modify_me,
    modify_shell, get_me, get_shell, put_shell, lift, gbind, gret, graise,
    of_result, modify_self; simpl.

(** *** Dragging *)

Lemma mouse_moves_idle (gs : list (Z * Z)) (sh : Shell) :
  drag_pos sh = None -> mouse_moves gs sh = (Return tt, sh).
Proof.
  intros H. induction gs as [|g gs IH]; [reflexivity|].
  simpl. unfold gbind at 1. unfold mouseMoveEvent, gbind at 1, get_shell.
  rewrite H. exact IH.
Qed.

Lemma mouse_moves_stuck (gs : list (Z * Z)) (sh : Shell) (d : Z * Z) :
  drag_pos sh = Some d -> QPoint_bool d = false ->
  mouse_moves gs sh = (Return tt, sh).
Proof.
  intros H Hd. induction gs as [|g gs IH]; [reflexivity|].
  simpl. unfold gbind at 1. unfold mouseMoveEvent, gbind at 1, get_shell.
  rewrite H, Hd. exact IH.
Qed.

Lemma mouse_moves_dragging (gs : list (Z * Z)) (me : DigitalClock) (w : World)
    (d : Z * Z) (h : bool) (f : Z) (s : Z * Z) (fd ft : Font) (c : list QtCall) :
  QPoint_bool d = true ->
  Forall (fun g => QPoint_bool g = true) gs ->
  mouse_moves gs
    {| app := {| self := me; world := w |}; drag_pos := Some d; hidden := h;
       window_flags := f; win_size := s; date_font := fd; time_font := ft;
       calls := c |}
  = (Return tt,
     {| app := {| self := set_pos (point_sub (point_add (pos me) (List.last gs d)) d) me;
                  world := w |};
        drag_pos := Some (List.last gs d); hidden := h;
        window_flags := f; win_size := s; date_font := fd; time_font := ft;
        calls := c |}).
Proof.
  intros Hd Hgs. revert me d Hd.
  induction Hgs as [|g gs Hg _ IH]; intros me d Hd.
  - simpl. unfold gret. do 3 f_equal.
    destruct me as [? ? ? ? ? ? ? [x y]], d as [dx dy].
    unfold set_pos, point_sub, point_add. simpl. do 2 f_equal; lia.
  - change (mouse_moves (g :: gs))
      with (gbind (mouseMoveEvent {| button := LeftButton; globalPosition := g |})
                  (fun _ => mouse_moves gs)).
    assert (Hl : List.last (g :: gs) d = List.last gs g).
    { clear. revert d g. induction gs as [|g' gs IH]; intros d g; [reflexivity|].
      change (List.last (g :: g' :: gs) d) with (List.last (g' :: gs) d).
      rewrite (IH d g'), (IH g g'). reflexivity. }
    rewrite Hl.
    unfold gbind at 1, mouseMoveEvent, gbind at 1, get_shell.
    cbn [drag_pos]. rewrite Hd.
    unfold gbind, get_me, modify_me, modify_shell, lift, modify_self,
      set_drag_pos, with_app.
    cbn [app self world drag_pos hidden window_flags win_size date_font
         time_font calls globalPosition].
    rewrite (IH _ g Hg). do 3 f_equal.
    destruct me as [? ? ? ? ? ? ? [x y]], d as [dx dy], g as [gx gy].
    destruct (List.last gs (gx, gy)) as [lx ly].
    unfold set_pos, point_sub, point_add. simpl. do 2 f_equal; lia.
Qed.

(** X10.  While the left button is held, the window follows the cursor: after a
    press at [g0] and moves through [gs], the window has moved by the
    cursor's displacement from [g0] to the last position, whatever the path,
    and nothing else of the window or the clock object has changed. *)
Theorem drag_follows_cursor (sh : Shell) (g0 : Z * Z) (gs : list (Z * Z)) :
  QPoint_bool g0 = true ->
  Forall (fun g => QPoint_bool g = true) gs ->
  gbind (mousePressEvent {| button := LeftButton; globalPosition := g0 |})
        (fun _ => mouse_moves gs) sh
  = (Return tt,
     set_drag_pos (Some (List.last gs g0))
       (with_app
          {| self := set_pos (point_sub (point_add (pos (self (app sh))) (List.last gs g0)) g0)
                             (self (app sh));
             world := world (app sh) |} sh)).
Proof.
  intros H0 Hgs. destruct sh as [[me w] d h f s fd ft c].
  unfold gbind, mousePressEvent, modify_shell, set_drag_pos. simpl.
  apply (mouse_moves_dragging gs me w g0 h f s fd ft c H0 Hgs).
Qed.

(** X11.  Without the left button nothing is dragged: after a press of another
    button, or after the button was released, moves of the mouse leave the
    window where it is. *)
Theorem moves_without_left_button_do_nothing (sh : Shell) (e : MouseEvent)
    (gs : list (Z * Z)) :
  button e <> LeftButton ->
  gbind (mousePressEvent e) (fun _ => mouse_moves gs) sh
    = (Return tt, set_drag_pos None sh) /\
  gbind mouseReleaseEvent (fun _ => mouse_moves gs) sh
    = (Return tt, set_drag_pos None sh).
Proof.
  intros Hb. split.
  - unfold gbind, mousePressEvent, modify_shell.
    destruct (button e); [contradiction| |]; apply mouse_moves_idle; reflexivity.
  - unfold gbind, mouseReleaseEvent, modify_shell. apply mouse_moves_idle; reflexivity.
Qed.

(** X12.  [mouseMoveEvent] tests [if self.drag_pos:], not [is not None]: when
    the press happened at a point that Qt counts as false, the drag never
    starts and the moves that follow leave the window where it is. *)
Theorem drag_from_false_point_is_dead (sh : Shell) (g0 : Z * Z) (gs : list (Z * Z)) :
  QPoint_bool g0 = false ->
  gbind (mousePressEvent {| button := LeftButton; globalPosition := g0 |})
        (fun _ => mouse_moves gs) sh
  = (Return tt, set_drag_pos (Some g0) sh).
Proof.
  intros H0. unfold gbind, mousePressEvent, modify_shell. simpl.
  apply (mouse_moves_stuck gs _ g0); [reflexivity|exact H0].
Qed.

(** *** The tray icon and the close button *)

(** Closing the window only hides it: the close event is ignored, nothing is
    saved and the application is not asked to quit; a click on the tray icon
    shows the window again, and a second click hides it. *)
Lemma close_hides_and_tray_click_shows (sh : Shell) :
  closeEvent sh = (Return false, set_hidden true sh) /\
  gbind closeEvent (fun _ => _handle_tray_activated Trigger) sh
    = (Return tt, set_hidden false sh) /\
  gbind closeEvent (fun _ =>
    gbind (_handle_tray_activated Trigger) (fun _ => _handle_tray_activated Trigger)) sh
    = (Return tt, set_hidden true sh).
Proof.
  repeat split.
Qed.

(** *** Exit *)

Lemma save_keeps_self (st : State) :
  fst (_save env st) = Return tt /\ self (snd (_save env st)) = self st.
Proof.
  destruct st as [me w].
  unfold _save, write_text, json_dumps, try_except, bind, ret, raise, pass,
    get_world, put_world, get_self, dispatch. simpl.
  destruct (write_outcome env (writes w)); simpl; split; reflexivity.
Qed.

(** X13.  [_exit] asks the application to quit whether or not the settings could be
    written: a failed write is swallowed by [_save], the clock object is
    unchanged, and when the write succeeds the file holds the settings of the
    moment. *)
Theorem exit_quits_whatever_the_write (sh : Shell) :
  fst (_exit env sh) = Return tt /\
  calls (snd (_exit env sh)) = calls sh ++ [Quit] /\
  self (app (snd (_exit env sh))) = self (app sh) /\
  (write_outcome env (writes (world (app sh))) = Written ->
   disk (world (app (snd (_exit env sh))))
     = Content (JsonText (PDict (save_data (self (app sh)))))).
Proof.
  destruct sh as [[me w] d h f s fd ft c].
  unfold _exit, gbind, lift, call. simpl.
  destruct (save_keeps_self {| self := me; world := w |}) as [Hr Hs].
  destruct (_save env {| self := me; world := w |}) as [r st] eqn:E.
  simpl in *. subst r. simpl. repeat split; [exact Hs|].
  intros Hw. rewrite (save_written env me w Hw) in E.
  injection E as <-. reflexivity.
Qed.

(** *** Computations that assign no attribute *)

Lemma keeps_me_gret {A} (a : A) : keeps_me (@gret QColor A a).
Proof. intros sh. reflexivity. Qed.

Lemma keeps_me_graise {A} (e : exn) : keeps_me (@graise QColor A e).
Proof. intros sh. reflexivity. Qed.

Lemma keeps_me_of_result {A} (r : result A) : keeps_me (@of_result QColor A r).
Proof. intros sh. reflexivity. Qed.

Lemma keeps_me_get_me : keeps_me (@get_me QColor).
Proof. intros sh. reflexivity. Qed.

Lemma keeps_me_get_shell : keeps_me (@get_shell QColor).
Proof. intros sh. reflexivity. Qed.

Lemma keeps_me_call (c : QtCall) : keeps_me (@call QColor c).
Proof. intros sh. reflexivity. Qed.

Lemma keeps_me_setWindowFlags (f : Z) : keeps_me (setWindowFlags f).
Proof. intros sh. reflexivity. Qed.

Lemma keeps_me_modify_shell (f : Shell -> Shell) :
  (forall sh, app (f sh) = app sh) -> keeps_me (modify_shell f).
Proof. intros H sh. unfold modify_shell. simpl. rewrite H. reflexivity. Qed.

Lemma keeps_me_float_arg (v : pyval) : keeps_me (float_arg v).
Proof.
  intros sh. unfold float_arg. destruct v; try reflexivity.
  destruct bool_as_float; reflexivity.
Qed.

Lemma keeps_me_int_arg (n : Z) : keeps_me (@int_arg QColor n).
Proof. intros sh. unfold int_arg. destruct (fits_int n); reflexivity. Qed.

Lemma keeps_me_lift {A} (m : M QColor A) :
  (forall st, self (snd (m st)) = self st) -> keeps_me (lift m).
Proof.
  intros H sh. unfold lift. specialize (H (app sh)).
  destruct (m (app sh)) as [r st]. exact H.
Qed.

Lemma keeps_me_gbind {A B} (m : G A) (k : A -> G B) :
  keeps_me m -> (forall a, keeps_me (k a)) -> keeps_me (gbind m k).
Proof.
  intros Hm Hk sh. unfold gbind. specialize (Hm sh).
  destruct (m sh) as [[a|e|c] sh1]; simpl in *; [|exact Hm|exact Hm].
  rewrite (Hk a sh1). exact Hm.
Qed.

Lemma py_int_keeps_self (v : pyval) (st : State) : self (snd (py_int v st)) = self st.
Proof.
  unfold py_int, of_option, ret, raise. destruct v; try reflexivity.
  destruct (int_of_str s); reflexivity.
Qed.

Lemma now_keeps_self (st : State) : self (snd (_now env st)) = self st.
Proof. apply now_keeps_rest. Qed.

Ltac frame_me :=
  repeat first
    [ apply keeps_me_gbind; [|intros ?]
    | apply keeps_me_gret | apply keeps_me_graise | apply keeps_me_of_result
    | apply keeps_me_get_me | apply keeps_me_get_shell | apply keeps_me_call
    | apply keeps_me_setWindowFlags | apply keeps_me_float_arg
    | apply keeps_me_int_arg
    | apply keeps_me_modify_shell; intros []; reflexivity
    | apply keeps_me_lift; intros ?; first [apply py_int_keeps_self | apply now_keeps_self
                                            | apply save_keeps_self]
    | match goal with
      | |- keeps_me (if ?b then _ else _) => destruct b
      | |- keeps_me (match ?x with _ => _ end) => destruct x
      end ].

Lemma apply_style_keeps_me (file : SourceFile) : keeps_me (_apply_style file).
Proof.
  unfold _apply_style, set_label_fonts, show. frame_me.
Qed.

Lemma tick_keeps_me : keeps_me (_tick env).
Proof.
  unfold _tick, _font_h, setFixedWidth, setFixedHeight. frame_me.
Qed.

(** *** Ticks *)

(** X14.  A tick displays and resizes; it assigns no attribute of the clock
    object: settings, offsets and position are the same after it, whether it
    returns or raises. *)
Theorem tick_assigns_no_attribute (sh : Shell) :
  self (app (snd (_tick env sh))) = self (app sh).
Proof. apply tick_keeps_me. Qed.

(** X15.  With a manual offset that is not a number, a tick raises the TypeError
    of [_now] before it touches a label: no text is set and the window is
    not resized. *)
Theorem tick_fails_before_the_labels (sh : Shell) :
  as_float (manual_offset (self (app sh))) = None ->
  fst (_tick env sh) = Raise TypeError /\
  calls (snd (_tick env sh)) = calls sh /\
  win_size (snd (_tick env sh)) = win_size sh.
Proof.
  intros H. destruct sh as [[me w] d h f s fd ft c]. simpl in H.
  assert (E : exists w',
    _tick env {| app := {| self := me; world := w |}; drag_pos := d; hidden := h;
                 window_flags := f; win_size := s; date_font := fd;
                 time_font := ft; calls := c |}
    = (Raise TypeError,
       {| app := {| self := me; world := w' |}; drag_pos := d; hidden := h;
          window_flags := f; win_size := s; date_font := fd;
          time_font := ft; calls := c |})).
  { unfold _tick, gbind at 1, lift, _now, float_add, datetime_now, bind, ret,
      raise, of_option, get_world, put_world, get_self. simpl.
    rewrite H. simpl. eexists. reflexivity. }
  destruct E as (w' & E). rewrite E. repeat split.
Qed.

(** *** Style *)

(** The point size [_apply_style] gives the date label for a float time
    size [a]: one point less, but not less than 1. *)
Lemma apply_style_floats (file : SourceFile) (me : DigitalClock) (w : World)
    (d : option (Z * Z)) (h : bool) (f : Z) (s : Z * Z) (fd ft : Font)
    (c : list QtCall) (a b o : Z) :
  time_pt me = PFloat a ->
  spacing me = PFloat b ->
  opacity me = PFloat o ->
  fits_int (b ÷ million) = true ->
  exists h' f',
    _apply_style file
      {| app := {| self := me; world := w |}; drag_pos := d; hidden := h;
         window_flags := f; win_size := s; date_font := fd; time_font := ft;
         calls := c |}
    = (Return tt,
       {| app := {| self := me; world := w |}; drag_pos := d; hidden := h';
          window_flags := f'; win_size := s;
          date_font := NotoSansSC true
                         (if a - 1 * million <? 1 * million then PInt 1
                          else PFloat (a - 1 * million));
          time_font := NotoSansSC true (PFloat a);
          calls := c ++ [SetStyleSheet date_lbl
                           ("color:" +:+ QColor_name (color me) +:+ "; background: transparent;");
                         SetStyleSheet time_lbl
                           ("color:" +:+ QColor_name (color me) +:+ "; background: transparent;");
                         SetSpacing (b ÷ million);
                         SetWindowOpacity o] |}).
Proof.
  intros Ha Hb Ho Hf.
  unfold _apply_style, set_label_fonts, gbind, get_me, of_result, float_arg,
    int_arg, lift, modify_shell, set_date_font, set_time_font, call, get_shell,
    setWindowFlags, show, set_hidden, with_app, py_int, ret, gret.
  cbn [app self world drag_pos hidden window_flags win_size date_font
       time_font calls fst snd].
  rewrite Ha, Hb, Ho. cbn [py_sub_int py_max_int py_div_100 as_float].
  destruct file, (a - 1 * million <? 1 * million);
    cbn [app self world drag_pos hidden window_flags win_size date_font
         time_font calls fst snd]; rewrite Hf;
    cbn [app self world drag_pos hidden window_flags win_size date_font
         time_font calls fst snd];
    rewrite <- !app_assoc;
    match goal with
    | |- context [if negb ?t then _ else _] => destruct t
    end; cbn [negb app self world drag_pos hidden window_flags win_size
              date_font time_font calls fst snd];
    eexists _, _; reflexivity.
Qed.

(** X16.  For settings that are floats (with a spacing that fits a C int),
    [_apply_style] returns: the time label gets the font size, the date
    label one point less but never less than 1 (so below 2 pt the date is
    not smaller than the time by a full point), the opacity is passed on as
    a fraction of 100, the spacing as an integer truncated toward zero. *)
Theorem style_clamps_the_date_font (file : SourceFile) (sh : Shell) (a b o : Z) :
  time_pt (self (app sh)) = PFloat a ->
  spacing (self (app sh)) = PFloat b ->
  opacity (self (app sh)) = PFloat o ->
  fits_int (b ÷ million) = true ->
  exists sh',
    _apply_style file sh = (Return tt, sh') /\
    app sh' = app sh /\
    time_font sh' = NotoSansSC true (PFloat a) /\
    date_font sh' = NotoSansSC true (if a <? 2 * million then PInt 1
                                     else PFloat (a - million)) /\
    calls sh' = calls sh
      ++ [SetStyleSheet date_lbl
            ("color:" +:+ QColor_name (color (self (app sh))) +:+ "; background: transparent;");
          SetStyleSheet time_lbl
            ("color:" +:+ QColor_name (color (self (app sh))) +:+ "; background: transparent;");
          SetSpacing (b ÷ million);
          SetWindowOpacity o].
Proof.
  intros Ha Hb Ho Hf. destruct sh as [[me w] d h f s fd ft c]. simpl in *.
  destruct (apply_style_floats file me w d h f s fd ft c a b o Ha Hb Ho Hf)
    as (h' & f' & H).
  eexists. split; [exact H|]. simpl. repeat split.
  f_equal. unfold million.
  destruct (a - 1 * 1000000 <? 1 * 1000000) eqn:E1, (a <? 2 * 1000000) eqn:E2;
    try reflexivity; try (f_equal; lia); lia.
Qed.

(** *** Start *)

Lemma with_disk_same (w : World) : with_disk (disk w) w = w.
Proof. destruct w; reflexivity. Qed.

Lemma apply_style_needs_number (file : SourceFile) (sh : Shell) :
  as_float (time_pt (self (app sh))) = None ->
  _apply_style file sh = (Raise TypeError, sh).
Proof.
  intros H. unfold _apply_style, gbind, get_me, of_result.
  destruct (time_pt (self (app sh))); try discriminate; reflexivity.
Qed.

Lemma init_styles_loaded_settings (file : SourceFile) (p : Z * Z) (sh : Shell)
    (me' : DigitalClock) (a b o : Z) :
  _load {| self := defaults p; world := world (app sh) |}
    = (Return tt, {| self := me'; world := world (app sh) |}) ->
  time_pt me' = PFloat a ->
  spacing me' = PFloat b ->
  opacity me' = PFloat o ->
  fits_int (b ÷ million) = true ->
  exists h' f' fd,
    DigitalClock_init file p sh
    = (Return tt,
       {| app := {| self := me'; world := world (app sh) |};
          drag_pos := None; hidden := h'; window_flags := f';
          win_size := win_size sh;
          date_font := fd;
          time_font := NotoSansSC true (PFloat a);
          calls := [SetStyleSheet date_lbl
                      ("color:" +:+ QColor_name (color me') +:+ "; background: transparent;");
                    SetStyleSheet time_lbl
                      ("color:" +:+ QColor_name (color me') +:+ "; background: transparent;");
                    SetSpacing (b ÷ million);
                    SetWindowOpacity o;
                    StartTimer 1000;
                    StartThread] |}).
Proof.
  intros Hl Ha Hb Ho Hf.
  unfold DigitalClock_init, gbind at 1, get_shell, gbind at 1, put_shell,
    gbind at 1, setWindowFlags, gbind at 1, lift.
  cbn [app self world drag_pos hidden window_flags win_size date_font
       time_font calls fst snd].
  rewrite Hl. unfold with_app.
  cbn [app self world drag_pos hidden window_flags win_size date_font
       time_font calls fst snd].
  unfold gbind at 1.
  destruct (apply_style_floats file me' (world (app sh)) None true
              (flags_reported FramelessWindowHint) (win_size sh)
              DefaultFont DefaultFont [] a b o Ha Hb Ho Hf) as (h' & f' & Hs).
  rewrite Hs. unfold gbind, call. simpl. eexists _, _, _. reflexivity.
Qed.

Lemma init_stops_at_text_font (file : SourceFile) (p : Z * Z) (sh : Shell)
    (me' : DigitalClock) :
  _load {| self := defaults p; world := world (app sh) |}
    = (Return tt, {| self := me'; world := world (app sh) |}) ->
  as_float (time_pt me') = None ->
  DigitalClock_init file p sh
    = (Raise TypeError,
       {| app := {| self := me'; world := world (app sh) |};
          drag_pos := None; hidden := true;
          window_flags := flags_reported FramelessWindowHint;
          win_size := win_size sh;
          date_font := DefaultFont; time_font := DefaultFont;
          calls := [] |}).
Proof.
  intros Hl Ha.
  unfold DigitalClock_init, gbind at 1, get_shell, gbind at 1, put_shell,
    gbind at 1, setWindowFlags, gbind at 1, lift.
  cbn [app self world drag_pos hidden window_flags win_size date_font
       time_font calls fst snd].
  rewrite Hl. unfold with_app.
  cbn [app self world drag_pos hidden window_flags win_size date_font
       time_font calls fst snd].
  unfold gbind at 1. rewrite apply_style_needs_number by exact Ha.
  reflexivity.
Qed.

(** X17.  A start without a settings file succeeds with the built-in defaults:
    the labels are styled for 10 pt (date 9 pt), spacing 2, opacity 90 %,
    and only then the one-second timer and the sync thread are started. *)
Theorem first_start_uses_defaults (file : SourceFile) (p : Z * Z) (sh : Shell) :
  disk (world (app sh)) = Absent ->
  exists sh',
    DigitalClock_init file p sh = (Return tt, sh') /\
    app sh' = {| self := defaults p; world := world (app sh) |} /\
    drag_pos sh' = None /\
    time_font sh' = NotoSansSC true (PFloat 10000000) /\
    calls sh'
      = [SetStyleSheet date_lbl
           ("color:" +:+ QColor_name (QColor_named "white") +:+ "; background: transparent;");
         SetStyleSheet time_lbl
           ("color:" +:+ QColor_name (QColor_named "white") +:+ "; background: transparent;");
         SetSpacing 2;
         SetWindowOpacity 90000000;
         StartTimer 1000;
         StartThread].
Proof.
  intros Hd.
  assert (Hl : _load {| self := defaults p; world := world (app sh) |}
               = (Return tt, {| self := defaults p; world := world (app sh) |})).
  { rewrite <- (with_disk_same (world (app sh))), Hd. apply load_absent. }
  destruct (init_styles_loaded_settings file p sh (defaults p) 10000000 2000000 90000000
              Hl eq_refl eq_refl eq_refl eq_refl) as (h' & f' & fd & H).
  eexists. split; [exact H|]. repeat split.
Qed.

(** X18.  [_load] does not check types and [_apply_style] computes with the font
    size: a settings file whose [font] is not a number (and whose [pos] asks
    for no position outside the window system's coordinates) is loaded
    without complaint, then [__init__] raises a TypeError, before any style
    is set and before the timer and the sync thread are started. *)
Theorem text_font_stops_the_start (file : SourceFile) (p : Z * Z) (sh : Shell)
    (m : gmap string pyval) (c : string) (v : pyval) :
  disk (world (app sh)) = Content (JsonText (PDict m)) ->
  default (PStr (QColor_name (QColor_named "white"))) (m !! "color") = PStr c ->
  pos_fits m = true ->
  m !! "font" = Some v ->
  as_float v = None ->
  fst (DigitalClock_init file p sh) = Raise TypeError /\
  time_pt (self (app (snd (DigitalClock_init file p sh)))) = v /\
  calls (snd (DigitalClock_init file p sh)) = [].
Proof.
  intros Hd Hc Hfit Hf Hv.
  destruct (load_dict_any_pos (defaults p) (world (app sh)) m c Hc Hfit) as (xy & Hl).
  rewrite <- Hd, with_disk_same in Hl.
  assert (Ht : time_pt (set_pos xy (loaded_fields (defaults p) m c)) = v).
  { simpl. rewrite Hf. reflexivity. }
  rewrite (init_stops_at_text_font file p sh _ Hl) by (rewrite Ht; exact Hv).
  repeat split. exact Ht.
Qed.

(** X19.  Exit and start again: when the write at exit succeeds, the next start
    restores every setting and the window position, styles the labels for
    them and starts timer and thread; the network offset is not restored but
    starts from 0.0.  (The settings are floats, the colour one that Qt
    builds back from its name, the position within the C ints.) *)
Theorem exit_then_start_restores_settings (file : SourceFile) (sh : Shell)
    (p : Z * Z) (a b o : Z) :
  write_outcome env (writes (world (app sh))) = Written ->
  time_pt (self (app sh)) = PFloat a ->
  spacing (self (app sh)) = PFloat b ->
  opacity (self (app sh)) = PFloat o ->
  fits_int (b ÷ million) = true ->
  QColor_named (QColor_name (color (self (app sh)))) = color (self (app sh)) ->
  fits_int (fst (pos (self (app sh)))) && fits_int (snd (pos (self (app sh)))) = true ->
  exists sh1 sh2,
    _exit env sh = (Return tt, sh1) /\
    DigitalClock_init file p sh1 = (Return tt, sh2) /\
    self (app sh2) = set_offset 0 (self (app sh)) /\
    time_font sh2 = NotoSansSC true (PFloat a) /\
    last (calls sh2) = Some StartThread.
Proof.
  intros Hw Ha Hb Ho Hf Hc Hp.
  destruct sh as [[me w] d h f s fd ft c]. simpl in *.
  assert (He : _exit env
      {| app := {| self := me; world := w |}; drag_pos := d; hidden := h;
         window_flags := f; win_size := s; date_font := fd; time_font := ft;
         calls := c |}
    = (Return tt,
       {| app := {| self := me;
                    world := after_write (Content (JsonText (PDict (save_data me)))) w |};
          drag_pos := d; hidden := h; window_flags := f; win_size := s;
          date_font := fd; time_font := ft; calls := c ++ [Quit] |})).
  { unfold _exit, gbind, lift, call. simpl. rewrite (save_written env me w Hw).
    reflexivity. }
  pose proof (load_dict_pos (defaults p)
                (after_write (Content (JsonText (PDict (save_data me)))) w)
                (save_data me) (QColor_name (color me)) (fst (pos me)) (snd (pos me))
                eq_refl eq_refl Hp) as Hl.
  assert (Hme : set_pos (fst (pos me), snd (pos me))
                  (loaded_fields (defaults p) (save_data me) (QColor_name (color me)))
                = set_offset 0 me).
  { unfold loaded_fields, set_pos, set_offset, save_data. simpl.
    rewrite Hc. destruct me as [? ? ? ? ? ? ? []]. reflexivity. }
  rewrite Hme in Hl.
  change (with_disk (Content (JsonText (PDict (save_data me))))
            (after_write (Content (JsonText (PDict (save_data me)))) w))
    with (after_write (Content (JsonText (PDict (save_data me)))) w) in Hl.
  set (sh1 := {| app := {| self := me;
                    world := after_write (Content (JsonText (PDict (save_data me)))) w |};
          drag_pos := d; hidden := h; window_flags := f; win_size := s;
          date_font := fd; time_font := ft; calls := c ++ [Quit] |}).
  destruct (init_styles_loaded_settings file p sh1 (set_offset 0 me) a b o Hl Ha Hb Ho Hf)
    as (h' & f' & fd' & H).
  eexists sh1, _. split; [exact He|]. split; [exact H|]. repeat split.
Qed.

(** *** The settings dialog *)

Lemma keeps_shell_gret {A} (a : A) : keeps_shell (@gret QColor A a).
Proof. intros sh. reflexivity. Qed.

Lemma keeps_shell_graise {A} (e : exn) : keeps_shell (@graise QColor A e).
Proof. intros sh. reflexivity. Qed.

Lemma keeps_shell_of_result {A} (r : result A) : keeps_shell (@of_result QColor A r).
Proof. intros sh. reflexivity. Qed.

Lemma keeps_shell_float_arg (v : pyval) : keeps_shell (float_arg v).
Proof.
  intros sh. unfold float_arg. destruct v; try reflexivity.
  destruct bool_as_float; reflexivity.
Qed.

Lemma keeps_shell_int_arg (n : Z) : keeps_shell (@int_arg QColor n).
Proof. intros sh. unfold int_arg. destruct (fits_int n); reflexivity. Qed.

Lemma keeps_shell_py_int (v : pyval) : keeps_shell (lift (py_int v)).
Proof.
  intros [[me w] d h f s fd ft c]. unfold lift, py_int, of_option, ret, raise.
  destruct v; try reflexivity. simpl. destruct (int_of_str s0); reflexivity.
Qed.

Lemma keeps_shell_gbind {A B} (m : G A) (k : A -> G B) :
  keeps_shell m -> (forall a, keeps_shell (k a)) -> keeps_shell (gbind m k).
Proof.
  intros Hm Hk sh. unfold gbind. specialize (Hm sh).
  destruct (m sh) as [[a|e|c] sh1]; simpl in *; [|exact Hm|exact Hm].
  rewrite (Hk a sh1). exact Hm.
Qed.

Lemma slider_spin_keeps_shell (val : pyval) : keeps_shell (_slider_spin val).
Proof.
  unfold _slider_spin.
  repeat first
    [ apply keeps_shell_gbind; [|intros ?]
    | apply keeps_shell_of_result | apply keeps_shell_py_int
    | apply keeps_shell_int_arg | apply keeps_shell_float_arg ].
Qed.

Lemma dialog_init_keeps_shell (me : DigitalClock) : keeps_shell (SettingsDialog_init me).
Proof.
  unfold SettingsDialog_init.
  repeat first
    [ apply slider_spin_keeps_shell
    | apply keeps_shell_gbind; [|intros ?]
    | apply keeps_shell_of_result
    | apply keeps_shell_gret | progress cbv zeta ].
Qed.

Lemma seq_returns {A} (m : G unit) (k : G A) (sh : Shell) (x : A) :
  fst (gbind m (fun _ => k) sh) = Return x ->
  exists sh1, fst (k sh1) = Return x.
Proof.
  unfold gbind. destruct (m sh) as [[[]|e|c] sh1]; [|discriminate|discriminate].
  intros H. exists sh1. exact H.
Qed.

Lemma dialog_init_copies (me : DigitalClock) (sh : Shell) (dlg : SettingsDialog QColor) :
  fst (SettingsDialog_init me sh) = Return dlg ->
  font_size dlg = time_pt me /\ dlg_opacity dlg = opacity me /\
  dlg_spacing dlg = spacing me /\ dlg_color dlg = color me /\
  dlg_manual_offset dlg = manual_offset me.
Proof.
  unfold SettingsDialog_init, gbind at 1, of_result.
  destruct (checked_of (topmost me)) as [b|]; [|discriminate].
  cbn [fst snd]. intros H.
  apply seq_returns in H as (sh1 & H). apply seq_returns in H as (sh2 & H).
  apply seq_returns in H as (sh3 & H). apply seq_returns in H as (sh4 & H).
  injection H as <-. repeat split.
Qed.

Lemma picks_keep_numbers (cs : list QColor) (dlg : SettingsDialog QColor) :
  let dlg' := fold_left (fun d c => _choose_color c d) cs dlg in
  font_size dlg' = font_size dlg /\ dlg_opacity dlg' = dlg_opacity dlg /\
  dlg_spacing dlg' = dlg_spacing dlg /\
  dlg_manual_offset dlg' = dlg_manual_offset dlg /\
  dlg_color dlg' = last_valid cs (dlg_color dlg).
Proof.
  revert dlg. induction cs as [|c cs IH]; intros dlg; [repeat split|].
  simpl. destruct (IH (_choose_color c dlg)) as (H1 & H2 & H3 & H4 & H5).
  rewrite H1, H2, H3, H4, H5. unfold _choose_color.
  destruct (QColor_isValid c); repeat split.
Qed.

Lemma open_settings_accepted (file : SourceFile) (s : Session QColor) (sh : Shell)
    (dlg0 : SettingsDialog QColor) :
  fst (SettingsDialog_init (self (app sh)) sh) = Return dlg0 ->
  accepted s = true ->
  self (app (snd (_open_settings env file s sh)))
    = assigned (fst (exec file s dlg0)) (self (app sh)).
Proof.
  intros Hi Ha.
  pose proof (dialog_init_keeps_shell (self (app sh)) sh) as Hk.
  destruct (SettingsDialog_init (self (app sh)) sh) as [r sh0] eqn:E.
  simpl in Hi, Hk. subst r sh0.
  unfold _open_settings, gbind at 1, get_me, gbind at 1. rewrite E.
  unfold exec. rewrite Ha.
  set (dlg := accept file s _).
  change (fst (dlg, true)) with dlg.
  assert (Ht : keeps_me (gbind (_apply_style file) (fun _ => lift (_save env)))).
  { apply keeps_me_gbind; [apply apply_style_keeps_me|].
    intros _. apply keeps_me_lift. intros st. apply save_keeps_self. }
  unfold gbind at 1 2 3 4 5 6, modify_me, lift, modify_self.
  cbn [fst snd app self world with_app].
  rewrite Ht. reflexivity.
Qed.

Lemma open_settings_cancelled (file : SourceFile) (s : Session QColor) (sh : Shell) :
  accepted s = false ->
  snd (_open_settings env file s sh) = sh.
Proof.
  intros Ha.
  pose proof (dialog_init_keeps_shell (self (app sh)) sh) as Hk.
  unfold _open_settings, gbind at 1, get_me, gbind at 1.
  destruct (SettingsDialog_init (self (app sh)) sh) as [[dlg0|e|c] sh0].
  - simpl in Hk. subst sh0. unfold exec. rewrite Ha. reflexivity.
  - exact Hk.
  - exact Hk.
Qed.

Lemma open_settings_not_built (file : SourceFile) (s : Session QColor) (sh : Shell)
    (e : exn) :
  fst (SettingsDialog_init (self (app sh)) sh) = Raise e ->
  _open_settings env file s sh = (Raise e, sh).
Proof.
  intros Hi.
  pose proof (dialog_init_keeps_shell (self (app sh)) sh) as Hk.
  unfold _open_settings, gbind at 1, get_me, gbind at 1.
  destruct (SettingsDialog_init (self (app sh)) sh) as [r sh0].
  simpl in Hi, Hk. subst r sh0. reflexivity.
Qed.

Lemma open_settings_ended (file : SourceFile) (s : Session QColor) (sh : Shell)
    (c : Z) :
  fst (SettingsDialog_init (self (app sh)) sh) = Exit c ->
  _open_settings env file s sh = (Exit c, sh).
Proof.
  intros Hi.
  pose proof (dialog_init_keeps_shell (self (app sh)) sh) as Hk.
  unfold _open_settings, gbind at 1, get_me, gbind at 1.
  destruct (SettingsDialog_init (self (app sh)) sh) as [r sh0].
  simpl in Hi, Hk. subst r sh0. reflexivity.
Qed.

(** X20.  In [TimeClockWindows.py] the dialog's [accept] does not read the spin
    boxes, so [_open_settings] can never change the font size, the opacity,
    the spacing or the manual offset: whatever the user enters and whether
    the dialog is accepted or not, the four attributes are what they
    were. *)
Theorem open_settings_cannot_change_numbers (s : Session QColor) (sh : Shell) :
  let me := self (app sh) in
  let me' := self (app (snd (_open_settings env TimeClockWindows s sh))) in
  time_pt me' = time_pt me /\ opacity me' = opacity me /\
  spacing me' = spacing me /\ manual_offset me' = manual_offset me.
Proof.
  intros me me'. subst me me'.
  pose proof (dialog_init_keeps_shell (self (app sh)) sh) as Hk.
  destruct (fst (SettingsDialog_init (self (app sh)) sh)) as [dlg0|e|c] eqn:Hi.
  - destruct (accepted s) eqn:Ha.
    + rewrite (open_settings_accepted TimeClockWindows s sh dlg0 Hi Ha).
      destruct (dialog_init_copies _ _ _ Hi) as (H1 & H2 & H3 & _ & H5).
      unfold exec. rewrite Ha. cbn [fst accept assigned].
      destruct (picks_keep_numbers (picked s) dlg0) as (P1 & P2 & P3 & P4 & _).
      cbn. simpl in *. rewrite P1, P2, P3, P4, H1, H2, H3, H5. repeat split.
    + rewrite (open_settings_cancelled TimeClockWindows s sh Ha). repeat split.
  - rewrite (open_settings_not_built TimeClockWindows s sh e Hi). repeat split.
  - rewrite (open_settings_ended TimeClockWindows s sh c Hi). repeat split.
Qed.

(** X21.  In [TimeClockWindowsNotes.py] an accepted dialog sets the font size,
    the opacity, the spacing and the manual offset to the values of the spin
    boxes (as floats), even if the style or the save that follow fail; the
    network offset and the position are not touched. *)
Theorem open_settings_takes_spin_boxes (s : Session QColor) (sh : Shell)
    (dlg0 : SettingsDialog QColor) :
  fst (SettingsDialog_init (self (app sh)) sh) = Return dlg0 ->
  accepted s = true ->
  let me' := self (app (snd (_open_settings env TimeClockWindowsNotes s sh))) in
  time_pt me' = PFloat (e_font s) /\ opacity me' = PFloat (e_opac s) /\
  spacing me' = PFloat (e_space s) /\ manual_offset me' = PFloat (e_off s) /\
  offset me' = offset (self (app sh)) /\ pos me' = pos (self (app sh)).
Proof.
  intros Hi Ha me'. subst me'.
  rewrite (open_settings_accepted TimeClockWindowsNotes s sh dlg0 Hi Ha).
  unfold exec. rewrite Ha. repeat split.
Qed.

(** X22.  In both files an accepted dialog sets the colour to the last valid
    colour the user picked (or leaves it when none was picked or every
    colour dialog was cancelled) and the topmost flag to the state of the
    check box, as a boolean. *)
Theorem open_settings_takes_colour_and_topmost (file : SourceFile) (s : Session QColor)
    (sh : Shell) (dlg0 : SettingsDialog QColor) :
  fst (SettingsDialog_init (self (app sh)) sh) = Return dlg0 ->
  accepted s = true ->
  let me' := self (app (snd (_open_settings env file s sh))) in
  color me' = last_valid (picked s) (color (self (app sh))) /\
  topmost me' = PBool (top_checked s).
Proof.
  intros Hi Ha me'. subst me'.
  rewrite (open_settings_accepted file s sh dlg0 Hi Ha).
  destruct (dialog_init_copies _ _ _ Hi) as (_ & _ & _ & H4 & _).
  destruct (picks_keep_numbers (picked s) dlg0) as (_ & _ & _ & _ & P5).
  unfold exec. rewrite Ha. destruct file; cbn; rewrite P5, H4; split; reflexivity.
Qed.

(** X23.  A dialog that is cancelled changes nothing, whatever the user did in
    it: no attribute is assigned, no style is applied, nothing is written;
    the settings file and the window are exactly as before. *)
Theorem cancelled_dialog_changes_nothing (file : SourceFile) (s : Session QColor)
    (sh : Shell) (dlg0 : SettingsDialog QColor) :
  fst (SettingsDialog_init (self (app sh)) sh) = Return dlg0 ->
  accepted s = false ->
  _open_settings env file s sh = (Return tt, sh).
Proof.
  intros Hi Ha.
  pose proof (dialog_init_keeps_shell (self (app sh)) sh) as Hk.
  unfold _open_settings, gbind at 1, get_me, gbind at 1.
  destruct (SettingsDialog_init (self (app sh)) sh) as [r sh0].
  simpl in Hi, Hk. subst r sh0. unfold exec. rewrite Ha. reflexivity.
Qed.

(** X24.  In [TimeClockWindowsNotes.py] an accepted dialog takes effect at
    once: the labels are restyled for the new values and, when the write
    succeeds, the settings file holds the new settings before
    [_open_settings] returns. *)
Theorem accepted_dialog_is_applied_and_saved (s : Session QColor) (sh : Shell)
    (dlg0 : SettingsDialog QColor) :
  fst (SettingsDialog_init (self (app sh)) sh) = Return dlg0 ->
  accepted s = true ->
  fits_int (e_space s ÷ million) = true ->
  write_outcome env (writes (world (app sh))) = Written ->
  exists sh',
    _open_settings env TimeClockWindowsNotes s sh = (Return tt, sh') /\
    disk (world (app sh')) = Content (JsonText (PDict (save_data (self (app sh'))))) /\
    save_data (self (app sh')) !! "font" = Some (PFloat (e_font s)) /\
    time_font sh' = NotoSansSC true (PFloat (e_font s)) /\
    calls sh' = calls sh
      ++ [SetStyleSheet date_lbl
            ("color:" +:+ QColor_name (last_valid (picked s) (color (self (app sh))))
             +:+ "; background: transparent;");
          SetStyleSheet time_lbl
            ("color:" +:+ QColor_name (last_valid (picked s) (color (self (app sh))))
             +:+ "; background: transparent;");
          SetSpacing (e_space s ÷ million);
          SetWindowOpacity (e_opac s)].
Proof.
  intros Hi Ha Hf Hw.
  pose proof (dialog_init_keeps_shell (self (app sh)) sh) as Hk.
  destruct (dialog_init_copies _ _ _ Hi) as (_ & _ & _ & H4 & _).
  destruct (picks_keep_numbers (picked s) dlg0) as (_ & _ & _ & _ & P5).
  destruct (SettingsDialog_init (self (app sh)) sh) as [r sh0] eqn:E.
  simpl in Hi, Hk. subst r sh0.
  destruct sh as [[me w] d h f sz fd ft c].
  cbn [app self world] in *.
  unfold _open_settings, gbind at 1, get_me, gbind at 1.
  cbn [app self world]. rewrite E.
  unfold exec. rewrite Ha.
  unfold gbind at 1 2 3 4 5 6, modify_me, lift, modify_self, with_app.
  cbn [fst snd app self world drag_pos hidden window_flags win_size date_font
       time_font calls accept font_size dlg_opacity dlg_spacing dlg_color
       dlg_manual_offset chk_top].
  rewrite P5, H4.
  match goal with
  | |- context [gbind (_apply_style _) _ {| app := {| self := ?m; world := _ |};
                                        drag_pos := _; hidden := _; window_flags := _;
                                        win_size := _; date_font := _; time_font := _;
                                        calls := _ |}] =>
      destruct (apply_style_floats TimeClockWindowsNotes m w d h f sz fd ft c
                  (e_font s) (e_space s) (e_opac s)
                  eq_refl eq_refl eq_refl Hf) as (h' & f' & Hs);
      pose proof (save_written env m w Hw) as Hsave
  end.
  unfold gbind at 1. rewrite Hs. unfold lift. cbn [app]. rewrite Hsave.
  eexists. split; [reflexivity|]. repeat split.
Qed.

End WindowProps.

(** ** The further theorems at sample inputs *)

Lemma naive_server_date_witness :
  exists w',
    ntp_loop_body MockGui.naive_date_env Mock.synced
      = (Return tt, {| self := self Mock.synced; world := w' |}) /\
    offset (self Mock.synced) = 5000000.
Proof.
  assert (H : sync_result (outcome (next_exchange MockGui.naive_date_env
                                      (world Mock.synced)))
              = Success (Naive 10000000)) by (vm_compute; reflexivity).
  destruct (naive_server_date_keeps_offset MockGui.naive_date_env Mock.synced
              10000000 H) as (w' & Hb & _).
  exists w'. split; [exact Hb|reflexivity].
Defined.

Lemma load_ignores_list_witness :
  _load {| self := Mock.sample;
           world := with_disk (Content (JsonText (PList [PInt 1; PInt 2])))
                      (Mock.world0 Absent) |}
    = (Return tt,
       {| self := Mock.sample;
          world := with_disk (Content (JsonText (PList [PInt 1; PInt 2])))
                     (Mock.world0 Absent) |}).
Proof.
  apply (load_ignores_json_that_is_no_object (lib := Mock.lib)).
  intros d. discriminate.
Defined.

Lemma load_stops_at_rejected_colour_witness :
  exists st',
    _load {| self := defaults (0, 0);
             world := with_disk (Content (JsonText (PDict MockGui.list_colour_file)))
                        (Mock.world0 Absent) |} = (Return tt, st') /\
    time_pt (self st') = PFloat 14000000 /\
    topmost (self st') = PBool true /\
    manual_offset (self st') = PFloat 0 /\
    pos (self st') = (0, 0).
Proof.
  assert (Hc : MockGui.list_colour_file !! "color"
               = Some (PList [PInt 255; PInt 128; PInt 0])) by (vm_compute; reflexivity).
  assert (Hs : forall s, PList [PInt 255; PInt 128; PInt 0] <> PStr s)
    by (intros s; discriminate).
  pose proof (load_stops_at_rejected_colour (lib := Mock.lib) (defaults (0, 0))
                (Mock.world0 Absent) MockGui.list_colour_file _ Hc Hs eq_refl) as H.
  eexists. split; [exact H|]. repeat split.
Defined.



Lemma load_truncates_witness :
  exists st',
    _load {| self := defaults (7, 8);
             world := with_disk (Content (JsonText (PDict MockGui.float_pos_file)))
                        (Mock.world0 Absent) |} = (Return tt, st') /\
    pos (self st') = (12, -3).
Proof.
  assert (Hc : default (PStr (Mock.name (color (defaults (7, 8)))))
                 (MockGui.float_pos_file !! "color") = PStr "#ffffff")
    by (vm_compute; reflexivity).
  assert (Hp : MockGui.float_pos_file !! "pos"
               = Some (PList [PFloat 12900000; PFloat (-3700000)]))
    by (vm_compute; reflexivity).
  pose proof (load_truncates_float_position (lib := Mock.lib) (defaults (7, 8))
                (Mock.world0 Absent) MockGui.float_pos_file "#ffffff"
                12900000 (-3700000) Hc Hp eq_refl) as H.
  eexists. split; [exact H|reflexivity].
Defined.

Lemma now_takes_integer_witness :
  exists w',
    _now Mock.timeout_env {| self := MockGui.int_offset_clock; world := Mock.world0 Absent |}
      = (Return (Aware 10000000 (hours 8)),
         {| self := MockGui.int_offset_clock; world := w' |}).
Proof.
  destruct (now_takes_any_number (lib := Mock.lib) Mock.timeout_env
              MockGui.int_offset_clock (Mock.world0 Absent) 5000000
              eq_refl eq_refl eq_refl eq_refl eq_refl) as (w' & H).
  exists w'. exact H.
Defined.


Lemma drag_follows_cursor_witness :
  exists sh',
    gbind (mousePressEvent {| button := LeftButton; globalPosition := (10, 10) |})
          (fun _ => mouse_moves [(11, 12); (20, 30)])
          (MockGui.shell0 Mock.sample Absent) = (Return tt, sh') /\
    pos (self (app sh')) = (110, 220).
Proof.
  assert (Hg : Forall (fun g => QPoint_bool g = true) [(11, 12); (20, 30)])
    by (repeat constructor).
  pose proof (drag_follows_cursor (tk := MockGui.toolkit)
                (MockGui.shell0 Mock.sample Absent) (10, 10) [(11, 12); (20, 30)]
                eq_refl Hg) as H.
  eexists. split; [exact H|reflexivity].
Defined.

Lemma moves_without_left_button_witness :
  gbind (mousePressEvent {| button := RightButton; globalPosition := (10, 10) |})
        (fun _ => mouse_moves [(11, 12); (20, 30)])
        (MockGui.shell0 Mock.sample Absent)
    = (Return tt, MockGui.shell0 Mock.sample Absent).
Proof.
  assert (Hb : button {| button := RightButton; globalPosition := (10, 10) |}
               <> LeftButton) by discriminate.
  destruct (moves_without_left_button_do_nothing (tk := MockGui.toolkit)
              (MockGui.shell0 Mock.sample Absent)
              {| button := RightButton; globalPosition := (10, 10) |}
              [(11, 12); (20, 30)] Hb) as [H _].
  exact H.
Defined.

Lemma drag_from_false_point_witness :
  exists sh',
    gbind (mousePressEvent {| button := LeftButton; globalPosition := (0, 0) |})
          (fun _ => mouse_moves [(11, 12); (20, 30)])
          (MockGui.shell0 Mock.sample Absent) = (Return tt, sh') /\
    pos (self (app sh')) = (100, 200).
Proof.
  pose proof (drag_from_false_point_is_dead (tk := MockGui.toolkit)
                (MockGui.shell0 Mock.sample Absent) (0, 0) [(11, 12); (20, 30)]
                eq_refl) as H.
  eexists. split; [exact H|reflexivity].
Defined.

Lemma exit_quits_witness :
  fst (_exit Mock.disk_full_env (MockGui.shell0 Mock.sample Absent)) = Return tt /\
  calls (snd (_exit Mock.disk_full_env (MockGui.shell0 Mock.sample Absent))) = [Quit].
Proof.
  destruct (exit_quits_whatever_the_write Mock.disk_full_env
              (MockGui.shell0 Mock.sample Absent)) as (H1 & H2 & _).
  split; [exact H1|exact H2].
Defined.

Lemma tick_fails_witness :
  fst (_tick Mock.timeout_env
         (MockGui.shell0 (set_manual_offset (PStr "soon") Mock.sample) Absent))
    = Raise TypeError.
Proof.
  destruct (tick_fails_before_the_labels (tk := MockGui.toolkit) Mock.timeout_env
              (MockGui.shell0 (set_manual_offset (PStr "soon") Mock.sample) Absent)
              eq_refl) as (H & _).
  exact H.
Defined.

Lemma style_clamps_witness :
  exists sh',
    _apply_style TimeClockWindows
      (MockGui.shell0 (set_time_pt (PFloat 1500000) Mock.sample) Absent)
      = (Return tt, sh') /\
    date_font sh' = NotoSansSC true (PInt 1) /\
    time_font sh' = NotoSansSC true (PFloat 1500000).
Proof.
  destruct (style_clamps_the_date_font (tk := MockGui.toolkit) TimeClockWindows
              (MockGui.shell0 (set_time_pt (PFloat 1500000) Mock.sample) Absent)
              1500000 3000000 80000000 eq_refl eq_refl eq_refl eq_refl)
    as (sh' & H & _ & Ht & Hd & _).
  exists sh'. split; [exact H|]. split; [exact Hd|exact Ht].
Defined.

Lemma first_start_witness :
  exists sh',
    DigitalClock_init TimeClockWindows (40, 50) (MockGui.shell0 Mock.sample Absent)
      = (Return tt, sh') /\
    self (app sh') = defaults (40, 50).
Proof.
  destruct (first_start_uses_defaults (tk := MockGui.toolkit) TimeClockWindows (40, 50)
              (MockGui.shell0 Mock.sample Absent) eq_refl) as (sh' & H & Ha & _).
  exists sh'. split; [exact H|]. rewrite Ha. reflexivity.
Defined.

Lemma text_font_stops_the_start_witness :
  fst (DigitalClock_init TimeClockWindows (40, 50)
         (MockGui.shell0 Mock.sample (Content (JsonText (PDict MockGui.text_font_file)))))
    = Raise TypeError.
Proof.
  assert (Hc : default (PStr (Mock.name (Mock.named "white")))
                 (MockGui.text_font_file !! "color") = PStr "#ffffff")
    by (vm_compute; reflexivity).
  assert (Hf : MockGui.text_font_file !! "font" = Some (PStr "big"))
    by (vm_compute; reflexivity).
  assert (Hfit : pos_fits (lib := Mock.lib) MockGui.text_font_file = true)
    by (vm_compute; reflexivity).
  destruct (text_font_stops_the_start (lib := Mock.lib) (tk := MockGui.toolkit)
              TimeClockWindows (40, 50)
              (MockGui.shell0 Mock.sample (Content (JsonText (PDict MockGui.text_font_file))))
              MockGui.text_font_file "#ffffff" (PStr "big") eq_refl Hc Hfit Hf eq_refl)
    as (H & _).
  exact H.
Defined.

Lemma exit_then_start_witness :
  exists sh1 sh2,
    _exit Mock.timeout_env (MockGui.shell0 Mock.sample Absent) = (Return tt, sh1) /\
    DigitalClock_init TimeClockWindowsNotes (40, 50) sh1 = (Return tt, sh2) /\
    self (app sh2) = set_offset 0 Mock.sample.
Proof.
  assert (Hc : Mock.named (Mock.name (color Mock.sample)) = color Mock.sample)
    by reflexivity.
  destruct (exit_then_start_restores_settings (lib := Mock.lib) (tk := MockGui.toolkit)
              Mock.timeout_env TimeClockWindowsNotes (MockGui.shell0 Mock.sample Absent) (40, 50)
              12500000 3000000 80000000 eq_refl eq_refl eq_refl eq_refl eq_refl Hc eq_refl)
    as (sh1 & sh2 & H1 & H2 & H3 & _).
  exists sh1, sh2. split; [exact H1|]. split; [exact H2|exact H3].
Defined.

Lemma open_settings_takes_spin_boxes_witness :
  time_pt (self (app (snd (_open_settings Mock.timeout_env TimeClockWindowsNotes
                             MockGui.session_ok (MockGui.shell0 Mock.sample Absent)))))
    = PFloat 20000000.
Proof.
  assert (Hi : exists dlg0,
    fst (SettingsDialog_init (self (app (MockGui.shell0 Mock.sample Absent)))
           (MockGui.shell0 Mock.sample Absent)) = Return dlg0)
    by (eexists; vm_compute; reflexivity).
  destruct Hi as (dlg0 & Hi).
  destruct (open_settings_takes_spin_boxes (lib := Mock.lib) (tk := MockGui.toolkit)
              Mock.timeout_env MockGui.session_ok (MockGui.shell0 Mock.sample Absent)
              dlg0 Hi eq_refl) as (H & _).
  exact H.
Defined.

Lemma open_settings_takes_colour_witness :
  color (self (app (snd (_open_settings Mock.timeout_env TimeClockWindows
                           MockGui.session_ok (MockGui.shell0 Mock.sample Absent)))))
    = Mock.Rgb 255 128 0.
Proof.
  assert (Hi : exists dlg0,
    fst (SettingsDialog_init (self (app (MockGui.shell0 Mock.sample Absent)))
           (MockGui.shell0 Mock.sample Absent)) = Return dlg0)
    by (eexists; vm_compute; reflexivity).
  destruct Hi as (dlg0 & Hi).
  destruct (open_settings_takes_colour_and_topmost (lib := Mock.lib)
              (tk := MockGui.toolkit) Mock.timeout_env TimeClockWindows
              MockGui.session_ok (MockGui.shell0 Mock.sample Absent)
              dlg0 Hi eq_refl) as (H & _).
  rewrite H. reflexivity.
Defined.

Lemma cancelled_dialog_witness :
  _open_settings Mock.timeout_env TimeClockWindowsNotes MockGui.session_cancel
    (MockGui.shell0 Mock.sample Absent)
  = (Return tt, MockGui.shell0 Mock.sample Absent).
Proof.
  assert (Hi : exists dlg0,
    fst (SettingsDialog_init (self (app (MockGui.shell0 Mock.sample Absent)))
           (MockGui.shell0 Mock.sample Absent)) = Return dlg0)
    by (eexists; vm_compute; reflexivity).
  destruct Hi as (dlg0 & Hi).
  apply (cancelled_dialog_changes_nothing (lib := Mock.lib) (tk := MockGui.toolkit)
           Mock.timeout_env TimeClockWindowsNotes MockGui.session_cancel
           (MockGui.shell0 Mock.sample Absent) dlg0 Hi eq_refl).
Defined.

Lemma accepted_dialog_witness :
  exists sh',
    _open_settings Mock.timeout_env TimeClockWindowsNotes MockGui.session_ok
      (MockGui.shell0 Mock.sample Absent) = (Return tt, sh') /\
    save_data (self (app sh')) !! "font" = Some (PFloat 20000000).
Proof.
  assert (Hi : exists dlg0,
    fst (SettingsDialog_init (self (app (MockGui.shell0 Mock.sample Absent)))
           (MockGui.shell0 Mock.sample Absent)) = Return dlg0)
    by (eexists; vm_compute; reflexivity).
  destruct Hi as (dlg0 & Hi).
  destruct (accepted_dialog_is_applied_and_saved (lib := Mock.lib) (tk := MockGui.toolkit)
              Mock.timeout_env MockGui.session_ok (MockGui.shell0 Mock.sample Absent)
              dlg0 Hi eq_refl eq_refl eq_refl) as (sh' & H & _ & Hf & _).
  exists sh'. split; [exact H|exact Hf].
Defined.
